(** * Scaleway serverless modules: container, function namespace and the
      two read-only info modules

    A shallow embedding of the four Ansible modules under
    [plugins/modules/cloud/scaleway] and the properties of their
    reconciliation logic.

    The modules are straight-line glue around a REST client.  They are
    embedded as programs of a small free monad whose effects are the calls
    the modules issue ([api.get], [api.post], [api.patch], [api.delete],
    [wait_to_complete_state_transition], [fetch_all_resources],
    [api.warn]); a program is run against a [world] that answers each call
    from the history of the calls made so far, and yields the trace of
    calls together with the way the module ended ([exit_json], [fail_json]
    or an uncaught Python exception). *)

From stdpp Require Import base strings list gmap.
From Stdlib Require Import ZArith.

Set Warnings "-register-all".
Local Open Scope Z_scope.
Local Open Scope string_scope.

(** ** JSON values

    What [json.loads] produces and what the modules pass around.  A dict is
    kept as the list of its items in insertion order; its keys are strings
    and are distinct.  Numbers are the integers (no resource attribute the
    modules look at is a float). *)

Inductive jvalue : Type :=
| JNull
| JBool (b : bool)
| JInt (n : Z)
| JStr (s : string)
| JList (l : list jvalue)
| JObj (items : list (string * jvalue)).

(** Structural equality of JSON values. *)
Fixpoint jvalue_eqb (a b : jvalue) : bool :=
  match a, b with
  | JNull, JNull => true
  | JBool x, JBool y => Bool.eqb x y
  | JInt x, JInt y => Z.eqb x y
  | JStr x, JStr y => String.eqb x y
  | JList xs, JList ys =>
      (fix go (xs ys : list jvalue) : bool :=
         match xs, ys with
         | [], [] => true
         | x :: xs', y :: ys' => jvalue_eqb x y && go xs' ys'
         | _, _ => false
         end) xs ys
  | JObj xs, JObj ys =>
      (fix go (xs ys : list (string * jvalue)) : bool :=
         match xs, ys with
         | [], [] => true
         | (k, x) :: xs', (k', y) :: ys' =>
             String.eqb k k' && jvalue_eqb x y && go xs' ys'
         | _, _ => false
         end) xs ys
  | _, _ => false
  end.

(** ** Python exceptions and partial operations *)

Inductive exn : Type :=
| KeyError (k : string)
| TypeError.

Inductive result (A : Type) : Type :=
| Ok (a : A)
| Err (e : exn).
Arguments Ok {A} a.
Arguments Err {A} e.

Definition result_bind {A B} (r : result A) (f : A -> result B) : result B :=
  match r with
  | Ok a => f a
  | Err e => Err e
  end.

(** Dict operations on the item list: [d.get(k)], [d[k] = v], [del d[k]]. *)
Fixpoint dict_get (items : list (string * jvalue)) (k : string) : option jvalue :=
  match items with
  | [] => None
  | (k', v) :: rest => if String.eqb k' k then Some v else dict_get rest k
  end.

Fixpoint dict_set (items : list (string * jvalue)) (k : string) (v : jvalue)
  : list (string * jvalue) :=
  match items with
  | [] => [(k, v)]
  | (k', v') :: rest =>
      if String.eqb k' k then (k', v) :: rest else (k', v') :: dict_set rest k v
  end.

Fixpoint dict_del (items : list (string * jvalue)) (k : string)
  : list (string * jvalue) :=
  match items with
  | [] => []
  | (k', v') :: rest =>
      if String.eqb k' k then dict_del rest k else (k', v') :: dict_del rest k
  end.

(** [j[k]] for a string [k]: only a dict can be subscripted by a string. *)
Definition subscript (j : jvalue) (k : string) : result jvalue :=
  match j with
  | JObj items =>
      match dict_get items k with
      | Some v => Ok v
      | None => Err (KeyError k)
      end
  | _ => Err TypeError
  end.

(** [for x in j]: a list yields its elements, a dict its keys, a string its
    characters; nothing else is iterable. *)
Fixpoint chars (s : string) : list string :=
  match s with
  | EmptyString => []
  | String c rest => String c EmptyString :: chars rest
  end.

Definition py_iter (j : jvalue) : result (list jvalue) :=
  match j with
  | JList l => Ok l
  | JObj items => Ok (map (fun kv => JStr (fst kv)) items)
  | JStr s => Ok (map JStr (chars s))
  | _ => Err TypeError
  end.

(** [not x]: the falsy values are [None], [False], [0], [""], [[]], [{}]. *)
Definition py_truthy (j : jvalue) : bool :=
  match j with
  | JNull => false
  | JBool b => b
  | JInt n => negb (Z.eqb n 0)
  | JStr s => negb (String.eqb s "")
  | JList l => match l with [] => false | _ => true end
  | JObj items => match items with [] => false | _ => true end
  end.

(** Keys of a Python dict: the hashable values up to [==].  [True] and
    [False] are the integers 1 and 0; lists and dicts are unhashable. *)
Inductive hkey : Type :=
| HNone
| HInt (n : Z)
| HStr (s : string).

Definition py_hash_key (j : jvalue) : result hkey :=
  match j with
  | JNull => Ok HNone
  | JBool b => Ok (HInt (if b then 1 else 0))
  | JInt n => Ok (HInt n)
  | JStr s => Ok (HStr s)
  | JList _ | JObj _ => Err TypeError
  end.

#[global] Instance hkey_eq_dec : EqDecision hkey.
Proof. solve_decision. Defined.

Definition hkey_to_sum (k : hkey) : unit + (Z + string) :=
  match k with
  | HNone => inl tt
  | HInt n => inr (inl n)
  | HStr s => inr (inr s)
  end.

Definition hkey_of_sum (x : unit + (Z + string)) : hkey :=
  match x with
  | inl _ => HNone
  | inr (inl n) => HInt n
  | inr (inr s) => HStr s
  end.

#[global] Instance hkey_countable : Countable hkey.
Proof.
  refine (inj_countable' hkey_to_sum hkey_of_sum _).
  intros []; reflexivity.
Defined.

(** [dict((fn["name"], fn) for fn in l)]: the items are inserted in list
    order, so a later resource replaces an earlier one of the same name.
    The first element without a ["name"] or with an unhashable one raises. *)
Fixpoint name_lookup_from (acc : gmap hkey jvalue) (l : list jvalue)
  : result (gmap hkey jvalue) :=
  match l with
  | [] => Ok acc
  | fn :: rest =>
      match subscript fn "name" with
      | Err e => Err e
      | Ok name =>
          match py_hash_key name with
          | Err e => Err e
          | Ok k => name_lookup_from (<[k := fn]> acc) rest
          end
      end
  end.

Definition name_lookup (l : list jvalue) : result (gmap hkey jvalue) :=
  name_lookup_from empty l.

(** ** The REST client and the host runtime

    [Response] is the client's answer to a call; [path] is the address of a
    call, either the module's [api.api_path] itself or
    [api.api_path + "/%s" % id] (kept as the pair, the rendering of [id] by
    [%s] is left to Python). *)

Record Response : Type := {
  status_code : Z;
  json : jvalue;
  info : jvalue
}.

(** Modelled from the spec: the success test of the client's response,
    which the modules read as [response.ok]; success is a 2xx status. *)
Definition ok (r : Response) : bool :=
  (200 <=? status_code r)%Z && (status_code r <? 300)%Z.

Inductive path : Type :=
| Collection (api_path : string)
| Item (api_path : string) (id : jvalue).

Inductive request : Type :=
| Get (p : path)
| Post (p : path) (data : jvalue)
| Patch (p : path) (data : jvalue)
| Delete (p : path).

(** A failure message: the literal text of the format string with the
    formatted values in place. *)
Inductive frag : Type :=
| Lit (s : string)
| Fmt (v : jvalue).

Definition message : Type := list frag.

(** One entry of the trace of a run: a call with its answer. *)
Inductive event : Type :=
| EvHttp (rq : request) (r : Response)
| EvWait (api_path : string) (resource : jvalue) (stable_states : list string)
         (force_wait : bool) (r : option message)
| EvFetch (api_path : string) (resource_key : string)
          (r : list jvalue + message)
| EvWarn (x : jvalue).

(** The remote side: every answer may depend on all that happened before. *)
Record world : Type := {
  http : list event -> request -> Response;
  wait : list event -> string -> jvalue -> list string -> bool -> option message;
  fetch : list event -> string -> string -> list jvalue + message
}.

(** Programs: the calls a module issues, ending in a value, in
    [module.fail_json] or in an uncaught exception. *)
Inductive prog (A : Type) : Type :=
| Ret (a : A)
| FailJson (msg : message)
| Raise (e : exn)
| Http (rq : request) (k : Response -> prog A)
| Wait (api_path : string) (resource : jvalue) (stable_states : list string)
       (force_wait : bool) (k : option message -> prog A)
| Fetch (api_path : string) (resource_key : string)
        (k : list jvalue + message -> prog A)
| Warn (x : jvalue) (k : prog A).
Arguments Ret {A} a.
Arguments FailJson {A} msg.
Arguments Raise {A} e.
Arguments Http {A} rq k.
Arguments Wait {A} api_path resource stable_states force_wait k.
Arguments Fetch {A} api_path resource_key k.
Arguments Warn {A} x k.

Fixpoint bind {A B} (p : prog A) (f : A -> prog B) : prog B :=
  match p with
  | Ret a => f a
  | FailJson m => FailJson m
  | Raise e => Raise e
  | Http rq k => Http rq (fun r => bind (k r) f)
  | Wait ap rs st fw k => Wait ap rs st fw (fun r => bind (k r) f)
  | Fetch ap key k => Fetch ap key (fun r => bind (k r) f)
  | Warn x k => Warn x (bind k f)
  end.

Definition lift {A} (r : result A) : prog A :=
  match r with
  | Ok a => Ret a
  | Err e => Raise e
  end.

Notation "'let*' x ':=' p 'in' q" := (bind p (fun x => q))
  (at level 10, x pattern, p at level 100, q at level 200).
Notation "p ';;' q" := (bind p (fun _ => q))
  (at level 100, q at level 200, right associativity).

Inductive outcome (A : Type) : Type :=
| Returned (a : A)
| Failed (msg : message)
| Raised (e : exn).
Arguments Returned {A} a.
Arguments Failed {A} msg.
Arguments Raised {A} e.

(** [run w hist p] runs [p] after the calls [hist] and gives the whole
    trace, [hist] included, and the outcome. *)
Fixpoint run {A} (w : world) (hist : list event) (p : prog A)
  : list event * outcome A :=
  match p with
  | Ret a => (hist, Returned a)
  | FailJson m => (hist, Failed m)
  | Raise e => (hist, Raised e)
  | Http rq k =>
      let r := http w hist rq in
      run w (hist ++ [EvHttp rq r]) (k r)
  | Wait ap rs st fw k =>
      let r := wait w hist ap rs st fw in
      run w (hist ++ [EvWait ap rs st fw r]) (k r)
  | Fetch ap key k =>
      let r := fetch w hist ap key in
      run w (hist ++ [EvFetch ap key r]) (k r)
  | Warn x k => run w (hist ++ [EvWarn x]) k
  end.

(** The host: [module.params], [module.check_mode], and the client object
    with the [api_path] that [core] sets on it. *)
Record AnsibleModule (P : Type) : Type := {
  params : P;
  check_mode : bool
}.
Arguments params {P} _.
Arguments check_mode {P} _.

Record Scaleway (P : Type) : Type := {
  module : AnsibleModule P;
  api_path : string
}.
Arguments module {P} _.
Arguments api_path {P} _.

(** What [module.exit_json(changed=..., <key>=...)] hands to the host. *)
Record exit : Type := ExitJson {
  changed : bool;
  result_key : string;
  result_value : jvalue
}.

(** *** The client's methods and the shared helpers *)

Definition api_get (p : path) : prog Response := Http (Get p) Ret.
Definition api_post (p : path) (data : jvalue) : prog Response := Http (Post p data) Ret.
Definition api_patch (p : path) (data : jvalue) : prog Response := Http (Patch p data) Ret.
Definition api_delete (p : path) : prog Response := Http (Delete p) Ret.
Definition api_warn (x : jvalue) : prog unit := Warn x (Ret tt).
Definition fail_json {A} (msg : message) : prog A := FailJson msg.

(** Modelled from the spec: the shared wait-for-stable-state routine of
    the utility module.  Given the resource and the terminal statuses it
    polls until the status is terminal, then returns, or it fails the
    module.  The polling is one call answered by the [world];
    [force_wait] is [false] where the caller leaves the argument out. *)
Definition wait_to_complete_state_transition {P} (api : Scaleway P)
    (resource : jvalue) (stable_states : list string) (force_wait : bool)
  : prog unit :=
  Wait (api_path api) resource stable_states force_wait
       (fun r => match r with
                 | None => Ret tt
                 | Some msg => FailJson msg
                 end).

(** Modelled from the spec: the listing helper of the utility module, used
    by the function namespace module.  It lists the resources under
    [resource_key] at [api.api_path] and returns them, or it fails the
    module.  The listing is one call answered by the [world]. *)
Definition fetch_all_resources {P} (api : Scaleway P) (resource_key : string)
  : prog (list jvalue) :=
  Fetch (api_path api) resource_key
        (fun r => match r with
                  | inl l => Ret l
                  | inr msg => FailJson msg
                  end).

(** The type of [SENSITIVE_ATTRIBUTES]: a parenthesised string literal
    without a trailing comma is a [str], with one it is a tuple. *)
Inductive attr_seq : Type :=
| PyStr (s : string)
| PyTuple (l : list string).

(** [for attr in attributes]. *)
Definition attr_iter (a : attr_seq) : list string :=
  match a with
  | PyStr s => chars s
  | PyTuple l => l
  end.

Definition SENSITIVE_VALUE : jvalue := JStr "SENSITIVE_VALUE".

(** Modelled from the spec: the output filter of the utility module.  Each
    attribute of [attributes] that the description has is replaced with the
    redaction marker; the marker is the one of the modules' RETURN
    samples. *)
Definition filter_sensitive_attributes (container : jvalue) (attributes : attr_seq)
  : jvalue :=
  match container with
  | JObj items =>
      JObj (fold_left
              (fun acc attr =>
                 match dict_get acc attr with
                 | Some _ => dict_set acc attr SENSITIVE_VALUE
                 | None => acc
                 end)
              (attr_iter attributes) items)
  | other => other
  end.

(** A value passed to the shared helper: a JSON value or a tuple of
    attribute names.  The modules call the helper with keyword arguments
    only; [kwargs] keeps each keyword with its value. *)
Inductive pyval : Type :=
| PJson (j : jvalue)
| PTuple (l : list string).

Definition kwargs : Type := list (string * pyval).

Fixpoint kw_get (kw : kwargs) (k : string) : option pyval :=
  match kw with
  | [] => None
  | (k', v) :: rest => if String.eqb k' k then Some v else kw_get rest k
  end.

(** Modelled from the spec: the comparison the attribute-diffing helper of
    the utility module makes, one possible implementation.  When a
    verifiable attribute of the observed resource differs from the wished
    one, the wished values of all mutable attributes are the patch;
    otherwise the patch is empty. *)
Definition diff_attributes (target wished : jvalue)
    (verifiable_mutable_attributes mutable_attributes : list string)
  : result jvalue :=
  result_bind
    (fold_left
       (fun acc attr =>
          result_bind acc (fun differs =>
          result_bind (subscript wished attr) (fun w =>
          result_bind (subscript target attr) (fun t =>
          Ok (differs || negb (jvalue_eqb t w))))))
       verifiable_mutable_attributes (Ok false))
    (fun differs =>
       if differs
       then result_bind
              (fold_left
                 (fun acc attr =>
                    result_bind acc (fun items =>
                    result_bind (subscript wished attr) (fun w =>
                    Ok (dict_set items attr w))))
                 mutable_attributes (Ok []))
              (fun items => Ok (JObj items))
       else Ok (JObj [])).

(** The parameters of the shared helper. *)
Definition helper_parameters : list string :=
  ["target"; "wished"; "verifiable_mutable_attributes"; "mutable_attributes"].

(** Modelled from the spec: the attribute-diffing helper of the utility
    module, [resource_attributes_should_be_changed], as a Python function of
    the four parameters [target], [wished], [verifiable_mutable_attributes]
    and [mutable_attributes].  The names are those of the call in
    [scaleway_function_namespace.py]; the call in [scaleway_container.py]
    passes the first two as [target_cn] and [wished_cn], and one function
    cannot have both pairs as its first two parameters.  A keyword that is
    no parameter, or a parameter left without a value, is a [TypeError], as
    for every Python call.  The strategies below take the helper as a
    parameter; this one serves to run them. *)
Definition attributes_diff (kw : kwargs) : result jvalue :=
  if forallb (fun k => existsb (String.eqb k) helper_parameters) (map fst kw)
  then
    match kw_get kw "target", kw_get kw "wished",
          kw_get kw "verifiable_mutable_attributes",
          kw_get kw "mutable_attributes" with
    | Some (PJson target), Some (PJson wished),
      Some (PTuple verifiable), Some (PTuple mutable) =>
        diff_attributes target wished verifiable mutable
    | _, _, _, _ => Err TypeError
    end
  else Err TypeError.

(** The [state] parameter of the two mutating modules. *)
Inductive resource_state : Type :=
| present
| absent.

(** An optional [int] or [str] parameter is [None] when left out. *)
Definition of_int (n : option Z) : jvalue :=
  match n with
  | Some z => JInt z
  | None => JNull
  end.

Definition of_str (s : option string) : jvalue :=
  match s with
  | Some x => JStr x
  | None => JNull
  end.

(** [[dict(key=var[0], value=var[1]) for var in d.items()]] *)
Definition secret_items (d : list (string * jvalue)) : jvalue :=
  JList (map (fun var => JObj [("key", JStr (fst var)); ("value", snd var)]) d).

(** ** scaleway_container.py *)

Module scaleway_container.

Definition STABLE_STATES : list string := ["ready"; "created"; "absent"].

Definition VERIFIABLE_MUTABLE_ATTRIBUTES : list string :=
  ["description"; "min_scale"; "max_scale"; "environment_variables";
   "memory_limit"; "timeout"; "privacy"; "registry_image";
   "max_concurrency"; "protocol"; "port"].

Definition MUTABLE_ATTRIBUTES : list string :=
  VERIFIABLE_MUTABLE_ATTRIBUTES ++ ["secret_environment_variables"].

(** No trailing comma in the source: a string, not a tuple. *)
Definition SENSITIVE_ATTRIBUTES : attr_seq :=
  PyStr "secret_environment_variables".

(** [module.params], typed by the [argument_spec] of [main]. *)
Record params_t : Type := {
  p_state : resource_state;
  p_namespace_id : string;
  p_region : string;
  p_name : string;
  p_description : string;
  p_min_scale : option Z;
  p_max_scale : option Z;
  p_memory_limit : option Z;
  p_container_timeout : option string;
  p_privacy : string;
  p_registry_image : string;
  p_max_concurrency : option Z;
  p_protocol : string;
  p_port : option Z;
  p_redeploy : bool;
  p_environment_variables : list (string * jvalue);
  p_secret_environment_variables : list (string * jvalue)
}.

(** The dict [wished_container] that [core] builds. *)
Record wished : Type := {
  state : resource_state;
  namespace_id : string;
  name : string;
  description : string;
  min_scale : option Z;
  max_scale : option Z;
  environment_variables : list (string * jvalue);
  secret_environment_variables : list (string * jvalue);
  memory_limit : option Z;
  timeout : option string;
  privacy : string;
  registry_image : string;
  max_concurrency : option Z;
  protocol : string;
  port : option Z;
  redeploy : bool
}.

Definition payload_from_wished_cn (wished_cn : wished) : list (string * jvalue) :=
  [ ("namespace_id", JStr (namespace_id wished_cn));
    ("name", JStr (name wished_cn));
    ("description", JStr (description wished_cn));
    ("min_scale", of_int (min_scale wished_cn));
    ("max_scale", of_int (max_scale wished_cn));
    ("environment_variables", JObj (environment_variables wished_cn));
    ("secret_environment_variables",
      secret_items (secret_environment_variables wished_cn));
    ("memory_limit", of_int (memory_limit wished_cn));
    ("timeout", of_str (timeout wished_cn));
    ("privacy", JStr (privacy wished_cn));
    ("registry_image", JStr (registry_image wished_cn));
    ("max_concurrency", of_int (max_concurrency wished_cn));
    ("protocol", JStr (protocol wished_cn));
    ("port", of_int (port wished_cn));
    ("redeploy", JBool (redeploy wished_cn)) ].

Section strategies.

(** The attribute-diffing helper imported from the utility module, called
    with keyword arguments. *)
Variable resource_attributes_should_be_changed : kwargs -> result jvalue.

Definition absent_strategy (api : Scaleway params_t) (wished_cn : wished)
  : prog (bool * jvalue) :=
  let* response := api_get (Collection (api_path api)) in
  let changed := false in
  if negb (ok response) then
    let* m := lift (subscript (json response) "message") in
    fail_json [Lit "Error getting containers [";
               Fmt (JInt (status_code response)); Lit ": "; Fmt m; Lit "]"]
  else
    let* cn_list := lift (subscript (json response) "containers") in
    let* cn_items := lift (py_iter cn_list) in
    let* cn_lookup := lift (name_lookup cn_items) in
    match cn_lookup !! HStr (name wished_cn) with
    | None => Ret (changed, JObj [])
    | Some target_cn =>
        let changed := true in
        if check_mode (module api) then
          Ret (changed, JObj [("status", JStr "Container would be destroyed")])
        else
          wait_to_complete_state_transition api target_cn STABLE_STATES true ;;
          let* id := lift (subscript target_cn "id") in
          let* response := api_delete (Item (api_path api) id) in
          if negb (ok response) then
            fail_json [Lit "Error deleting container [";
                       Fmt (JInt (status_code response)); Lit ": ";
                       Fmt (json response); Lit "]"]
          else
            wait_to_complete_state_transition api target_cn STABLE_STATES false ;;
            Ret (changed, json response)
    end.

Definition present_strategy (api : Scaleway params_t) (wished_cn : wished)
  : prog (bool * jvalue) :=
  let changed := false in
  let* response := api_get (Collection (api_path api)) in
  if negb (ok response) then
    let* m := lift (subscript (json response) "message") in
    fail_json [Lit "Error getting containers [";
               Fmt (JInt (status_code response)); Lit ": "; Fmt m; Lit "]"]
  else
    let* cn_list := lift (subscript (json response) "containers") in
    let* cn_items := lift (py_iter cn_list) in
    let* cn_lookup := lift (name_lookup cn_items) in
    let playload_cn := payload_from_wished_cn wished_cn in
    match cn_lookup !! HStr (name wished_cn) with
    | None =>
        let changed := true in
        if check_mode (module api) then
          Ret (changed, JObj [("status", JStr "A container would be created.")])
        else
          (* Creation doesn't support `redeploy` parameter *)
          let playload_cn := dict_del playload_cn "redeploy" in
          api_warn (JObj playload_cn) ;;
          let* creation_response :=
            api_post (Collection (api_path api)) (JObj playload_cn) in
          if negb (ok creation_response) then
            let* i := lift (subscript (info creation_response) "msg") in
            let* m := lift (subscript (json creation_response) "message") in
            fail_json [Lit "Error during container creation: "; Fmt i;
                       Lit ": '"; Fmt m; Lit "' (";
                       Fmt (json creation_response); Lit ")"]
          else
            wait_to_complete_state_transition
              api (json creation_response) STABLE_STATES false ;;
            let* id := lift (subscript (json creation_response) "id") in
            let* response := api_get (Item (api_path api) id) in
            Ret (changed, json response)
    | Some target_cn =>
        let* patch_payload :=
          lift (resource_attributes_should_be_changed
                  [("target_cn", PJson target_cn);
                   ("wished_cn", PJson (JObj playload_cn));
                   ("verifiable_mutable_attributes",
                    PTuple VERIFIABLE_MUTABLE_ATTRIBUTES);
                   ("mutable_attributes", PTuple MUTABLE_ATTRIBUTES)]) in
        if negb (py_truthy patch_payload) then Ret (changed, target_cn)
        else
          let changed := true in
          if check_mode (module api) then
            Ret (changed,
                 JObj [("status", JStr "Container attributes would be changed.")])
          else
            let* id := lift (subscript target_cn "id") in
            let* cn_patch_response :=
              api_patch (Item (api_path api) id) patch_payload in
            if negb (ok cn_patch_response) then
              let* m := lift (subscript (json cn_patch_response) "message") in
              fail_json [Lit "Error during container attributes update: [";
                         Fmt (JInt (status_code cn_patch_response));
                         Lit ": "; Fmt m; Lit "]"]
            else
              wait_to_complete_state_transition
                api target_cn STABLE_STATES false ;;
              let* id := lift (subscript target_cn "id") in
              let* response := api_get (Item (api_path api) id) in
              Ret (changed, json response)
    end.

Definition state_strategy (s : resource_state)
  : Scaleway params_t -> wished -> prog (bool * jvalue) :=
  match s with
  | present => present_strategy
  | absent => absent_strategy
  end.

(** The dict [wished_container] of [core]. *)
Definition wished_container (module : AnsibleModule params_t) : wished :=
  {| state := p_state (params module);
     namespace_id := p_namespace_id (params module);
     name := p_name (params module);
     description := p_description (params module);
     min_scale := p_min_scale (params module);
     max_scale := p_max_scale (params module);
     environment_variables := p_environment_variables (params module);
     secret_environment_variables :=
       p_secret_environment_variables (params module);
     memory_limit := p_memory_limit (params module);
     timeout := p_container_timeout (params module);
     privacy := p_privacy (params module);
     registry_image := p_registry_image (params module);
     max_concurrency := p_max_concurrency (params module);
     protocol := p_protocol (params module);
     port := p_port (params module);
     redeploy := p_redeploy (params module) |}.

Definition core (module : AnsibleModule params_t) : prog exit :=
  let region := p_region (params module) in
  let wished_container := wished_container module in
  let api :=
    {| module := module;
       api_path := "containers/v1beta1/regions/" +:+ region +:+ "/containers" |} in
  let* r := state_strategy (state wished_container) api wished_container in
  Ret (ExitJson (fst r) "container"
         (filter_sensitive_attributes (snd r) SENSITIVE_ATTRIBUTES)).

End strategies.

End scaleway_container.

(** ** scaleway_function_namespace.py *)

Module scaleway_function_namespace.

Definition STABLE_STATES : list string := ["ready"; "absent"].

Definition VERIFIABLE_MUTABLE_ATTRIBUTES : list string :=
  ["description"; "environment_variables"].

Definition MUTABLE_ATTRIBUTES : list string :=
  VERIFIABLE_MUTABLE_ATTRIBUTES ++ ["secret_environment_variables"].

(** With the trailing comma: a one-element tuple. *)
Definition SENSITIVE_ATTRIBUTES : attr_seq :=
  PyTuple ["secret_environment_variables"].

Record params_t : Type := {
  p_state : resource_state;
  p_project_id : string;
  p_region : string;
  p_name : string;
  p_description : string;
  p_environment_variables : list (string * jvalue);
  p_secret_environment_variables : list (string * jvalue)
}.

Record wished : Type := {
  state : resource_state;
  project_id : string;
  name : string;
  description : string;
  environment_variables : list (string * jvalue);
  secret_environment_variables : list (string * jvalue)
}.

Definition payload_from_wished_fn (wished_fn : wished) : list (string * jvalue) :=
  [ ("project_id", JStr (project_id wished_fn));
    ("name", JStr (name wished_fn));
    ("description", JStr (description wished_fn));
    ("environment_variables", JObj (environment_variables wished_fn));
    ("secret_environment_variables",
      secret_items (secret_environment_variables wished_fn)) ].

Section strategies.

Variable resource_attributes_should_be_changed : kwargs -> result jvalue.

Definition absent_strategy (api : Scaleway params_t) (wished_fn : wished)
  : prog (bool * jvalue) :=
  let changed := false in
  let* fn_list := fetch_all_resources api "namespaces" in
  let* fn_lookup := lift (name_lookup fn_list) in
  match fn_lookup !! HStr (name wished_fn) with
  | None => Ret (changed, JObj [])
  | Some target_fn =>
      let changed := true in
      if check_mode (module api) then
        Ret (changed,
             JObj [("status", JStr "Function namespace would be destroyed")])
      else
        wait_to_complete_state_transition api target_fn STABLE_STATES true ;;
        let* id := lift (subscript target_fn "id") in
        let* response := api_delete (Item (api_path api) id) in
        if negb (ok response) then
          fail_json [Lit "Error deleting function namespace [";
                     Fmt (JInt (status_code response)); Lit ": ";
                     Fmt (json response); Lit "]"]
        else
          wait_to_complete_state_transition api target_fn STABLE_STATES false ;;
          Ret (changed, json response)
  end.

Definition present_strategy (api : Scaleway params_t) (wished_fn : wished)
  : prog (bool * jvalue) :=
  let changed := false in
  let* fn_list := fetch_all_resources api "namespaces" in
  let* fn_lookup := lift (name_lookup fn_list) in
  let playload_fn := payload_from_wished_fn wished_fn in
  match fn_lookup !! HStr (name wished_fn) with
  | None =>
      let changed := true in
      if check_mode (module api) then
        Ret (changed,
             JObj [("status", JStr "A function namespace would be created.")])
      else
        api_warn (JObj playload_fn) ;;
        let* creation_response :=
          api_post (Collection (api_path api)) (JObj playload_fn) in
        if negb (ok creation_response) then
          let* i := lift (subscript (info creation_response) "msg") in
          let* m := lift (subscript (json creation_response) "message") in
          fail_json [Lit "Error during function namespace creation: "; Fmt i;
                     Lit ": '"; Fmt m; Lit "' (";
                     Fmt (json creation_response); Lit ")"]
        else
          wait_to_complete_state_transition
            api (json creation_response) STABLE_STATES false ;;
          let* id := lift (subscript (json creation_response) "id") in
          let* response := api_get (Item (api_path api) id) in
          Ret (changed, json response)
  | Some target_fn =>
      let* patch_payload :=
        lift (resource_attributes_should_be_changed
                [("target", PJson target_fn);
                 ("wished", PJson (JObj playload_fn));
                 ("verifiable_mutable_attributes",
                  PTuple VERIFIABLE_MUTABLE_ATTRIBUTES);
                 ("mutable_attributes", PTuple MUTABLE_ATTRIBUTES)]) in
      if negb (py_truthy patch_payload) then Ret (changed, target_fn)
      else
        let changed := true in
        if check_mode (module api) then
          Ret (changed,
               JObj [("status",
                      JStr "Function namespace attributes would be changed.")])
        else
          let* id := lift (subscript target_fn "id") in
          let* fn_patch_response :=
            api_patch (Item (api_path api) id) patch_payload in
          if negb (ok fn_patch_response) then
            let* m := lift (subscript (json fn_patch_response) "message") in
            fail_json
              [Lit "Error during function namespace attributes update: [";
               Fmt (JInt (status_code fn_patch_response));
               Lit ": "; Fmt m; Lit "]"]
          else
            wait_to_complete_state_transition
              api target_fn STABLE_STATES false ;;
            let* id := lift (subscript target_fn "id") in
            let* response := api_get (Item (api_path api) id) in
            Ret (changed, json response)
  end.

Definition state_strategy (s : resource_state)
  : Scaleway params_t -> wished -> prog (bool * jvalue) :=
  match s with
  | present => present_strategy
  | absent => absent_strategy
  end.

(** The dict [wished_function_namespace] of [core]. *)
Definition wished_function_namespace (module : AnsibleModule params_t)
  : wished :=
  {| state := p_state (params module);
     project_id := p_project_id (params module);
     name := p_name (params module);
     description := p_description (params module);
     environment_variables := p_environment_variables (params module);
     secret_environment_variables :=
       p_secret_environment_variables (params module) |}.

Definition core (module : AnsibleModule params_t) : prog exit :=
  let region := p_region (params module) in
  let wished_function_namespace := wished_function_namespace module in
  let api :=
    {| module := module;
       api_path := "functions/v1beta1/regions/" +:+ region +:+ "/namespaces" |} in
  let* r := state_strategy (state wished_function_namespace)
              api wished_function_namespace in
  Ret (ExitJson (fst r) "function_namespace"
         (filter_sensitive_attributes (snd r) SENSITIVE_ATTRIBUTES)).

End strategies.

End scaleway_function_namespace.

(** ** The two info modules

    [scaleway_container_registry_info.py] and
    [scaleway_function_namespace_info.py] have the same parameters and the
    same shape; they differ in the endpoint, the result key and the texts
    of the messages. *)

Record info_params : Type := {
  p_project_id : string;
  p_region : string;
  p_name : string
}.

Record info_wished : Type := {
  project_id : string;
  name : string
}.

Module scaleway_container_registry_info.

Definition SENSITIVE_ATTRIBUTES : attr_seq :=
  PyStr "secret_environment_variables".

Definition info_strategy (api : Scaleway info_params) (wished_cn : info_wished)
  : prog jvalue :=
  let* response := api_get (Collection (api_path api)) in
  if negb (ok response) then
    let* m := lift (subscript (json response) "message") in
    fail_json [Lit "Error getting container registries [";
               Fmt (JInt (status_code response)); Lit ": "; Fmt m; Lit "]"]
  else
    let* cn_list := lift (subscript (json response) "namespaces") in
    let* cn_items := lift (py_iter cn_list) in
    let* cn_lookup := lift (name_lookup cn_items) in
    match cn_lookup !! HStr (name wished_cn) with
    | None =>
        fail_json
          [Lit ("Error during container registries lookup: Unable to find container registry named '"
                +:+ name wished_cn +:+ "' in project '"
                +:+ project_id wished_cn +:+ "'")]
    | Some target_cn =>
        let* id := lift (subscript target_cn "id") in
        let* response := api_get (Item (api_path api) id) in
        if negb (ok response) then
          let* i := lift (subscript (info response) "msg") in
          let* m := lift (subscript (json response) "message") in
          fail_json [Lit "Error during container registry lookup: "; Fmt i;
                     Lit ": '"; Fmt m; Lit "' ("; Fmt (json response); Lit ")"]
        else Ret (json response)
    end.

Definition core (module : AnsibleModule info_params) : prog exit :=
  let region := p_region (params module) in
  let wished_container_namespace :=
    {| project_id := p_project_id (params module);
       name := p_name (params module) |} in
  let api :=
    {| module := module;
       api_path := "registry/v1/regions/" +:+ region +:+ "/namespaces" |} in
  let* summary := info_strategy api wished_container_namespace in
  Ret (ExitJson false "container_registry"
         (filter_sensitive_attributes summary SENSITIVE_ATTRIBUTES)).

End scaleway_container_registry_info.

Module scaleway_function_namespace_info.

Definition SENSITIVE_ATTRIBUTES : attr_seq :=
  PyStr "secret_environment_variables".

Definition info_strategy (api : Scaleway info_params) (wished_fn : info_wished)
  : prog jvalue :=
  let* response := api_get (Collection (api_path api)) in
  if negb (ok response) then
    let* m := lift (subscript (json response) "message") in
    fail_json [Lit "Error getting function namespaces [";
               Fmt (JInt (status_code response)); Lit ": "; Fmt m; Lit "]"]
  else
    let* fn_list := lift (subscript (json response) "namespaces") in
    let* fn_items := lift (py_iter fn_list) in
    let* fn_lookup := lift (name_lookup fn_items) in
    match fn_lookup !! HStr (name wished_fn) with
    | None =>
        fail_json
          [Lit ("Error during function namespace lookup: Unable to find function namespace named '"
                +:+ name wished_fn +:+ "' in project '"
                +:+ project_id wished_fn +:+ "'")]
    | Some target_fn =>
        let* id := lift (subscript target_fn "id") in
        let* response := api_get (Item (api_path api) id) in
        if negb (ok response) then
          let* i := lift (subscript (info response) "msg") in
          let* m := lift (subscript (json response) "message") in
          fail_json [Lit "Error during function namespace lookup: "; Fmt i;
                     Lit ": '"; Fmt m; Lit "' ("; Fmt (json response); Lit ")"]
        else Ret (json response)
    end.

Definition core (module : AnsibleModule info_params) : prog exit :=
  let region := p_region (params module) in
  let wished_function_namespace :=
    {| project_id := p_project_id (params module);
       name := p_name (params module) |} in
  let api :=
    {| module := module;
       api_path := "functions/v1beta1/regions/" +:+ region +:+ "/namespaces" |} in
  let* summary := info_strategy api wished_function_namespace in
  Ret (ExitJson false "function_namespace"
         (filter_sensitive_attributes summary SENSITIVE_ATTRIBUTES)).

End scaleway_function_namespace_info.

(** ** Runs of the modules

    [main] is what the host starts: each module's [main] builds the
    [AnsibleModule] and calls [core]. *)

Inductive info_module : Type :=
| container_registry_info
| function_namespace_info.

Definition info_core (k : info_module) : AnsibleModule info_params -> prog exit :=
  match k with
  | container_registry_info => scaleway_container_registry_info.core
  | function_namespace_info => scaleway_function_namespace_info.core
  end.

Inductive invocation : Type :=
| Container (m : AnsibleModule scaleway_container.params_t)
| FunctionNamespace (m : AnsibleModule scaleway_function_namespace.params_t)
| InfoModule (k : info_module) (m : AnsibleModule info_params).

Definition helper_t : Type := kwargs -> result jvalue.

Definition main (helper : helper_t) (i : invocation) : prog exit :=
  match i with
  | Container m => scaleway_container.core helper m
  | FunctionNamespace m => scaleway_function_namespace.core helper m
  | InfoModule k m => info_core k m
  end.

(** A strategy of one of the two mutating modules with its arguments. *)
Inductive task : Type :=
| ContainerTask (api : Scaleway scaleway_container.params_t)
                (wished_cn : scaleway_container.wished)
| NamespaceTask (api : Scaleway scaleway_function_namespace.params_t)
                (wished_fn : scaleway_function_namespace.wished).

Definition strategy (helper : helper_t) (t : task) : prog (bool * jvalue) :=
  match t with
  | ContainerTask api wished_cn =>
      scaleway_container.state_strategy helper
        (scaleway_container.state wished_cn) api wished_cn
  | NamespaceTask api wished_fn =>
      scaleway_function_namespace.state_strategy helper
        (scaleway_function_namespace.state wished_fn) api wished_fn
  end.

Definition task_check_mode (t : task) : bool :=
  match t with
  | ContainerTask api _ => check_mode (module api)
  | NamespaceTask api _ => check_mode (module api)
  end.

(** *** Observations on traces *)

Definition is_mutation (ev : event) : bool :=
  match ev with
  | EvHttp (Post _ _) _ | EvHttp (Patch _ _) _ | EvHttp (Delete _) _ => true
  | _ => false
  end.

Definition is_listing (ev : event) : bool :=
  match ev with
  | EvHttp (Get (Collection _)) _ | EvFetch _ _ _ => true
  | _ => false
  end.

Definition is_get (ev : event) : bool :=
  match ev with
  | EvHttp (Get _) _ => true
  | _ => false
  end.


Definition request_path (rq : request) : path :=
  match rq with
  | Get p | Post p _ | Patch p _ | Delete p => p
  end.


(** The regional endpoints of the interface description. *)
Definition region_of (i : invocation) : string :=
  match i with
  | Container m => scaleway_container.p_region (params m)
  | FunctionNamespace m => scaleway_function_namespace.p_region (params m)
  | InfoModule _ m => p_region (params m)
  end.

Definition endpoint (i : invocation) : string :=
  match i with
  | Container _ =>
      "containers/v1beta1/regions/" +:+ region_of i +:+ "/containers"
  | FunctionNamespace _ | InfoModule function_namespace_info _ =>
      "functions/v1beta1/regions/" +:+ region_of i +:+ "/namespaces"
  | InfoModule container_registry_info _ =>
      "registry/v1/regions/" +:+ region_of i +:+ "/namespaces"
  end.

Definition wished_name (i : invocation) : string :=
  match i with
  | Container m => scaleway_container.p_name (params m)
  | FunctionNamespace m => scaleway_function_namespace.p_name (params m)
  | InfoModule _ m => p_name (params m)
  end.

(** The resources the first call of a run lists, when it succeeds: the
    [GET] of the collection with a 2xx answer whose body has an iterable
    under the module's key, or the answer of [fetch_all_resources]. *)
Definition http_listing (w : world) (ap key : string) : option (list jvalue) :=
  let r := http w [] (Get (Collection ap)) in
  if ok r then
    match subscript (json r) key with
    | Ok v => match py_iter v with Ok l => Some l | Err _ => None end
    | Err _ => None
    end
  else None.

Definition listing (w : world) (i : invocation) : option (list jvalue) :=
  match i with
  | Container _ => http_listing w (endpoint i) "containers"
  | FunctionNamespace _ =>
      match fetch w [] (endpoint i) "namespaces" with
      | inl l => Some l
      | inr _ => None
      end
  | InfoModule _ _ => http_listing w (endpoint i) "namespaces"
  end.

(** The [state] a run asks for; the info modules have none. *)
Definition wished_state (i : invocation) : option resource_state :=
  match i with
  | Container m => Some (scaleway_container.p_state (params m))
  | FunctionNamespace m => Some (scaleway_function_namespace.p_state (params m))
  | InfoModule _ _ => None
  end.

(** The answer of the diffing helper for an observed resource, called as
    the module calls it. *)
Definition patch_payload (helper : helper_t) (i : invocation) (target : jvalue)
  : result jvalue :=
  match i with
  | Container m =>
      helper
        [("target_cn", PJson target);
         ("wished_cn",
          PJson (JObj (scaleway_container.payload_from_wished_cn
                         (scaleway_container.wished_container m))));
         ("verifiable_mutable_attributes",
          PTuple scaleway_container.VERIFIABLE_MUTABLE_ATTRIBUTES);
         ("mutable_attributes", PTuple scaleway_container.MUTABLE_ATTRIBUTES)]
  | FunctionNamespace m =>
      helper
        [("target", PJson target);
         ("wished",
          PJson (JObj (scaleway_function_namespace.payload_from_wished_fn
                         (scaleway_function_namespace.wished_function_namespace m))));
         ("verifiable_mutable_attributes",
          PTuple scaleway_function_namespace.VERIFIABLE_MUTABLE_ATTRIBUTES);
         ("mutable_attributes",
          PTuple scaleway_function_namespace.MUTABLE_ATTRIBUTES)]
  | InfoModule _ _ => Ok (JObj [])
  end.

(** The change a run would have to make, read off the desired state and
    the lookup of the observed resources, with the status text the module
    has for it: a creation when the resource is wished present and not
    listed, an update when it is listed and the helper returns a patch
    that is not empty, a deletion when it is wished absent and listed. *)
Definition would_be_change (helper : helper_t) (i : invocation)
    (lookup : gmap hkey jvalue) : option string :=
  match wished_state i, lookup !! HStr (wished_name i) with
  | Some present, None =>
      match i with
      | Container _ => Some "A container would be created."
      | _ => Some "A function namespace would be created."
      end
  | Some present, Some target =>
      match patch_payload helper i target with
      | Ok patch =>
          if py_truthy patch then
            match i with
            | Container _ => Some "Container attributes would be changed."
            | _ => Some "Function namespace attributes would be changed."
            end
          else None
      | Err _ => None
      end
  | Some absent, Some _ =>
      match i with
      | Container _ => Some "Container would be destroyed"
      | _ => Some "Function namespace would be destroyed"
      end
  | _, _ => None
  end.

(** The resource a call is about must be [r]: a call on an item addresses
    the ["id"] of [r], a wait polls [r], and nothing is created. *)
Definition targets (r : jvalue) (ev : event) : Prop :=
  match ev with
  | EvHttp (Get (Collection _)) _ => True
  | EvHttp (Get (Item _ id)) _
  | EvHttp (Patch (Item _ id) _) _
  | EvHttp (Delete (Item _ id)) _ => subscript r "id" = Ok id
  | EvHttp _ _ => False
  | EvWait _ resource _ _ _ => resource = r
  | EvFetch _ _ _ => True
  | EvWarn _ => False
  end.

(** A create or update that the API accepted. *)
Definition is_write_ok (ev : event) : bool :=
  match ev with
  | EvHttp (Post _ _) r | EvHttp (Patch _ _) r => ok r
  | _ => false
  end.

(** The id of the resource a create or update wrote: the ["id"] of the
    creation response, or the id the patch addressed. *)
Definition written_id (ev : event) : result jvalue :=
  match ev with
  | EvHttp (Post _ _) r => subscript (json r) "id"
  | EvHttp (Patch (Item _ id) _) _ => Ok id
  | _ => Err TypeError
  end.

(** [P ev rest] holds at every accepted create or update [ev] of the
    trace, [rest] being the calls that follow it. *)
Fixpoint after_each_write (P : event -> list event -> Prop) (tr : list event)
  : Prop :=
  match tr with
  | [] => True
  | ev :: rest => (is_write_ok ev = true -> P ev rest) /\ after_each_write P rest
  end.

Definition task_api_path (t : task) : string :=
  match t with
  | ContainerTask api _ => api_path api
  | NamespaceTask api _ => api_path api
  end.

Definition task_stable_states (t : task) : list string :=
  match t with
  | ContainerTask _ _ => scaleway_container.STABLE_STATES
  | NamespaceTask _ _ => scaleway_function_namespace.STABLE_STATES
  end.

(** ** Sample runs

    Resources as the API describes them, module parameters as a playbook
    gives them, and worlds whose answers depend on the request only. *)

Module Samples.

Definition reply (c : Z) (body : jvalue) : Response :=
  {| status_code := c; json := body;
     info := JObj [("status", JInt c);
                   ("msg", JStr (if (c <? 300)%Z then "OK (unknown bytes)"
                                 else "HTTP Error"))] |}.

Definition hashed_secrets : jvalue :=
  JList [JObj [("key", JStr "MY_SECRET_VAR");
               ("hashed_value", JStr "$argon2id$v=19$m=65536,t=1,p=2$c2FsdA")]].

(** A function namespace named [my-namespace]. *)
Definition ns (id : string) : jvalue :=
  JObj [("id", JStr id); ("name", JStr "my-namespace");
        ("description", JStr ""); ("environment_variables", JObj []);
        ("secret_environment_variables", hashed_secrets);
        ("status", JStr "ready")].

Definition ns_module (st : resource_state) (check : bool)
  : AnsibleModule scaleway_function_namespace.params_t :=
  {| params :=
       {| scaleway_function_namespace.p_state := st;
          scaleway_function_namespace.p_project_id := "my-project";
          scaleway_function_namespace.p_region := "fr-par";
          scaleway_function_namespace.p_name := "my-namespace";
          scaleway_function_namespace.p_description := "";
          scaleway_function_namespace.p_environment_variables := [];
          scaleway_function_namespace.p_secret_environment_variables :=
            [("MY_SECRET_VAR", JStr "my_secret_value")] |};
     check_mode := check |}.

(** A container named [web] whose attributes are the wished ones. *)
Definition web : jvalue :=
  JObj [("id", JStr "c9070eb0"); ("name", JStr "web");
        ("namespace_id", JStr "75e299f1"); ("description", JStr "");
        ("min_scale", JInt 0); ("max_scale", JInt 5);
        ("environment_variables", JObj [("MY_VAR", JStr "my_value")]);
        ("secret_environment_variables", hashed_secrets);
        ("memory_limit", JInt 256); ("timeout", JStr "300s");
        ("privacy", JStr "public");
        ("registry_image", JStr "rg.fr-par.scw.cloud/ns/nginx:latest");
        ("max_concurrency", JInt 50); ("protocol", JStr "http1");
        ("port", JInt 80); ("status", JStr "ready")].

Definition web_module (st : resource_state) (check : bool)
  : AnsibleModule scaleway_container.params_t :=
  {| params :=
       {| scaleway_container.p_state := st;
          scaleway_container.p_namespace_id := "75e299f1";
          scaleway_container.p_region := "fr-par";
          scaleway_container.p_name := "web";
          scaleway_container.p_description := "";
          scaleway_container.p_min_scale := Some 0;
          scaleway_container.p_max_scale := Some 5;
          scaleway_container.p_memory_limit := Some 256;
          scaleway_container.p_container_timeout := Some "300s";
          scaleway_container.p_privacy := "public";
          scaleway_container.p_registry_image :=
            "rg.fr-par.scw.cloud/ns/nginx:latest";
          scaleway_container.p_max_concurrency := Some 50;
          scaleway_container.p_protocol := "http1";
          scaleway_container.p_port := Some 80;
          scaleway_container.p_redeploy := false;
          scaleway_container.p_environment_variables :=
            [("MY_VAR", JStr "my_value")];
          scaleway_container.p_secret_environment_variables :=
            [("MY_SECRET_VAR", JStr "my_secret_value")] |};
     check_mode := check |}.

Definition web_api (check : bool) : Scaleway scaleway_container.params_t :=
  {| module := web_module present check;
     api_path := "containers/v1beta1/regions/fr-par/containers" |}.

Definition info_module_params : AnsibleModule info_params :=
  {| params := {| p_project_id := "my-project"; p_region := "fr-par";
                  p_name := "my-registry" |};
     check_mode := false |}.

(** The collection lists [listed] under [key] (and [fetch_all_resources]
    returns it), a read of an item is answered by [item], a create, update
    or delete by [write]; every wait reaches a stable state. *)
Definition serve (key : string) (listed : list jvalue) (item write : Response)
  : world :=
  {| http := fun _ rq =>
       match rq with
       | Get (Collection _) => reply 200 (JObj [(key, JList listed)])
       | Get (Item _ _) => item
       | _ => write
       end;
     wait := fun _ _ _ _ _ => None;
     fetch := fun _ _ _ => inl listed |}.

Definition created : jvalue :=
  JObj [("id", JStr "c9070eb0"); ("name", JStr "web"); ("status", JStr "pending")].

Definition server_error : jvalue :=
  JObj [("message", JStr "internal error")].

End Samples.

(** ** Symbolic execution of the modules *)

Ltac exec :=
  repeat first
    [ progress cbn [run bind lift fst snd app negb api_get api_post api_patch
                    api_delete api_warn fail_json
                    wait_to_complete_state_transition fetch_all_resources
                    api_path module check_mode params name project_id
                    scaleway_container.name scaleway_container.state
                    scaleway_function_namespace.name
                    scaleway_function_namespace.state] in *
    | progress simplify_eq
    | match goal with
      | H : ?x = _ |- context [match ?x with _ => _ end] => rewrite H
      | H : ?x = _ |- context [lift ?x] => rewrite H
      | H : ?x = _ |- context [negb ?x] => rewrite H
      end
    | case_match
    | match goal with
      | |- context [lift ?r] => destruct r eqn:?
      | H : context [lift ?r] |- _ => destruct r eqn:?
      end ].

Ltac unfold_modules :=
  unfold main, strategy, info_core,
    scaleway_container.core, scaleway_container.state_strategy,
    scaleway_container.present_strategy, scaleway_container.absent_strategy,
    scaleway_function_namespace.core,
    scaleway_function_namespace.state_strategy,
    scaleway_function_namespace.present_strategy,
    scaleway_function_namespace.absent_strategy,
    scaleway_container_registry_info.core,
    scaleway_container_registry_info.info_strategy,
    scaleway_function_namespace_info.core,
    scaleway_function_namespace_info.info_strategy,
    scaleway_container.wished_container,
    scaleway_function_namespace.wished_function_namespace in *.

Ltac ok_contradiction :=
  match goal with
  | H : negb ?x = true, H' : ?x = true |- _ => rewrite H' in H; discriminate
  end.

(** ** Further vocabulary for runs and traces *)

(** [P pre ev rest] at every position of a trace: [pre] the calls before
    [ev], [rest] the calls after it. *)
Fixpoint at_each (P : list event -> event -> list event -> Prop)
    (pre tr : list event) : Prop :=
  match tr with
  | [] => True
  | ev :: rest => P pre ev rest /\ at_each P (pre ++ [ev])%list rest
  end.

(** The answer of a call was a success; a call without an HTTP answer
    counts as one. *)
Definition event_ok (ev : event) : bool :=
  match ev with
  | EvHttp _ r => ok r
  | _ => true
  end.

Definition is_item_read (ev : event) : bool :=
  match ev with
  | EvHttp (Get (Item _ _)) _ => true
  | _ => false
  end.

(** What a run of the given [state] may send: an absent run neither
    creates nor patches nor warns, a present run never deletes and never
    forces a wait; an info run has no state and only reads. *)
Definition allowed_in_state (st : option resource_state) (ev : event) : bool :=
  match st, ev with
  | Some absent, EvHttp (Post _ _) _ => false
  | Some absent, EvHttp (Patch _ _) _ => false
  | Some absent, EvWarn _ => false
  | Some present, EvHttp (Delete _) _ => false
  | Some present, EvWait _ _ _ true _ => false
  | None, ev => is_get ev
  | _, _ => true
  end.

Definition task_state (t : task) : resource_state :=
  match t with
  | ContainerTask _ wished_cn => scaleway_container.state wished_cn
  | NamespaceTask _ wished_fn => scaleway_function_namespace.state wished_fn
  end.

(** The payload a strategy builds from the wished resource. *)
Definition task_payload (t : task) : list (string * jvalue) :=
  match t with
  | ContainerTask _ wished_cn => scaleway_container.payload_from_wished_cn wished_cn
  | NamespaceTask _ wished_fn =>
      scaleway_function_namespace.payload_from_wished_fn wished_fn
  end.

Definition task_secrets (t : task) : list (string * jvalue) :=
  match t with
  | ContainerTask _ wished_cn =>
      scaleway_container.secret_environment_variables wished_cn
  | NamespaceTask _ wished_fn =>
      scaleway_function_namespace.secret_environment_variables wished_fn
  end.

(** The strategy call that [core] makes, and the exit it builds from the
    strategy's return. *)
Definition task_of (i : invocation) : option task :=
  match i with
  | Container m =>
      Some (ContainerTask
              {| module := m;
                 api_path := "containers/v1beta1/regions/"
                             +:+ scaleway_container.p_region (params m)
                             +:+ "/containers" |}
              (scaleway_container.wished_container m))
  | FunctionNamespace m =>
      Some (NamespaceTask
              {| module := m;
                 api_path := "functions/v1beta1/regions/"
                             +:+ scaleway_function_namespace.p_region (params m)
                             +:+ "/namespaces" |}
              (scaleway_function_namespace.wished_function_namespace m))
  | InfoModule _ _ => None
  end.

Definition sensitive_attributes (i : invocation) : attr_seq :=
  match i with
  | Container _ => scaleway_container.SENSITIVE_ATTRIBUTES
  | FunctionNamespace _ => scaleway_function_namespace.SENSITIVE_ATTRIBUTES
  | InfoModule container_registry_info _ =>
      scaleway_container_registry_info.SENSITIVE_ATTRIBUTES
  | InfoModule function_namespace_info _ =>
      scaleway_function_namespace_info.SENSITIVE_ATTRIBUTES
  end.

Definition exit_key (i : invocation) : string :=
  match i with
  | Container _ => "container"
  | FunctionNamespace _ => "function_namespace"
  | InfoModule container_registry_info _ => "container_registry"
  | InfoModule function_namespace_info _ => "function_namespace"
  end.

Definition exit_of (i : invocation) (r : bool * jvalue) : exit :=
  ExitJson (fst r) (exit_key i)
    (filter_sensitive_attributes (snd r) (sensitive_attributes i)).

Definition map_outcome {A B} (f : A -> B) (o : outcome A) : outcome B :=
  match o with
  | Returned a => Returned (f a)
  | Failed msg => Failed msg
  | Raised e => Raised e
  end.

(** A listed resource has a name that can be a dict key. *)
Definition has_name (x : jvalue) : Prop :=
  exists v k, subscript x "name" = Ok v /\ py_hash_key v = Ok k.

(** The modules that list with a plain [api.get]. *)
Definition lists_by_get (i : invocation) : bool :=
  match i with
  | FunctionNamespace _ => false
  | _ => true
  end.

Definition listing_key (i : invocation) : string :=
  match i with
  | Container _ => "containers"
  | _ => "namespaces"
  end.

Definition listing_response (w : world) (i : invocation) : Response :=
  http w [] (Get (Collection (endpoint i))).

(** The parts of a recorded HTTP call; a call of another kind has none. *)
Definition event_path (ev : event) : path :=
  match ev with
  | EvHttp rq _ => request_path rq
  | _ => Collection ""
  end.

Definition event_data (ev : event) : jvalue :=
  match ev with
  | EvHttp (Post _ d) _ | EvHttp (Patch _ d) _ => d
  | _ => JNull
  end.

Definition event_response (ev : event) : Response :=
  match ev with
  | EvHttp _ r => r
  | _ => {| status_code := 0; json := JNull; info := JNull |}
  end.

Definition nth_event (n : nat) (tr : list event) : event :=
  nth n tr (EvWarn JNull).

Module MoreSamples.

(** The container [web] as listed with an outdated description. *)
Definition stale_web : jvalue :=
  JObj [("id", JStr "c9070eb0"); ("name", JStr "web");
        ("namespace_id", JStr "75e299f1"); ("description", JStr "old");
        ("min_scale", JInt 0); ("max_scale", JInt 5);
        ("environment_variables", JObj [("MY_VAR", JStr "my_value")]);
        ("secret_environment_variables", Samples.hashed_secrets);
        ("memory_limit", JInt 256); ("timeout", JStr "300s");
        ("privacy", JStr "public");
        ("registry_image", JStr "rg.fr-par.scw.cloud/ns/nginx:latest");
        ("max_concurrency", JInt 50); ("protocol", JStr "http1");
        ("port", JInt 80); ("status", JStr "ready")].

Definition web_task (st : resource_state) (check : bool) : task :=
  ContainerTask
    {| module := Samples.web_module st check;
       api_path := "containers/v1beta1/regions/fr-par/containers" |}
    (scaleway_container.wished_container (Samples.web_module st check)).

Definition ns_task (st : resource_state) (check : bool) : task :=
  NamespaceTask
    {| module := Samples.ns_module st check;
       api_path := "functions/v1beta1/regions/fr-par/namespaces" |}
    (scaleway_function_namespace.wished_function_namespace
       (Samples.ns_module st check)).

(** An API that lists nothing and rejects every write. *)
Definition rejecting : world :=
  Samples.serve "containers" [] (Samples.reply 200 Samples.web)
    (Samples.reply 403 (JObj [("message", JStr "insufficient permissions")])).

(** An API whose listing is refused; the body has a message or not. *)
Definition refusing (body : jvalue) : world :=
  {| http := fun _ _ => Samples.reply 401 body;
     wait := fun _ _ _ _ _ => None;
     fetch := fun _ _ _ => inl [] |}.

(** An API whose listing answers 200 with the given body. *)
Definition answering (body : jvalue) : world :=
  {| http := fun _ _ => Samples.reply 200 body;
     wait := fun _ _ _ _ _ => None;
     fetch := fun _ _ _ => inl [] |}.

(** The runs used below. *)
Definition creating : world :=
  Samples.serve "containers" [] (Samples.reply 200 Samples.web)
    (Samples.reply 200 Samples.created).

Definition updating : world :=
  Samples.serve "containers" [stale_web] (Samples.reply 200 Samples.web)
    (Samples.reply 200 Samples.web).

Definition deleting : world :=
  Samples.serve "namespaces" [Samples.ns "531a1fd7"]
    (Samples.reply 200 (Samples.ns "531a1fd7")) (Samples.reply 204 JNull).

Definition registry : jvalue :=
  JObj [("id", JStr "0d7d5270"); ("name", JStr "my-registry");
        ("status", JStr "ready")].

Definition reading : world :=
  Samples.serve "namespaces" [registry] (Samples.reply 200 registry)
    (Samples.reply 200 JNull).

(** The namespace module asked to remove [my-namespace], as another
    project would ask. *)
Definition other_ns_module : AnsibleModule scaleway_function_namespace.params_t :=
  {| params :=
       {| scaleway_function_namespace.p_state := absent;
          scaleway_function_namespace.p_project_id := "another-project";
          scaleway_function_namespace.p_region := "fr-par";
          scaleway_function_namespace.p_name := "my-namespace";
          scaleway_function_namespace.p_description := "not mine";
          scaleway_function_namespace.p_environment_variables := [];
          scaleway_function_namespace.p_secret_environment_variables := [] |};
     check_mode := false |}.

(** The namespace [my-namespace] as listed with an outdated description. *)
Definition stale_ns : jvalue :=
  JObj [("id", JStr "531a1fd7"); ("name", JStr "my-namespace");
        ("description", JStr "old"); ("environment_variables", JObj []);
        ("secret_environment_variables", Samples.hashed_secrets);
        ("status", JStr "ready")].

(** An API that lists the outdated namespace and accepts every write. *)
Definition renewing : world :=
  Samples.serve "namespaces" [stale_ns]
    (Samples.reply 200 (Samples.ns "531a1fd7"))
    (Samples.reply 200 (Samples.ns "531a1fd7")).

(** An API that lists the namespace as it is wished. *)
Definition settled : world :=
  Samples.serve "namespaces" [Samples.ns "531a1fd7"]
    (Samples.reply 200 (Samples.ns "531a1fd7"))
    (Samples.reply 200 (Samples.ns "531a1fd7")).

(** An API that lists the container [web] as it is wished. *)
Definition settled_web : world :=
  Samples.serve "containers" [Samples.web] (Samples.reply 200 Samples.web)
    (Samples.reply 200 Samples.web).

Definition renewing_trace : list event :=
  fst (run renewing []
         (main attributes_diff (FunctionNamespace (Samples.ns_module present false)))).

Definition deleting_run_trace : list event :=
  fst (run deleting []
         (main attributes_diff (FunctionNamespace (Samples.ns_module absent false)))).

Definition creating_trace : list event :=
  fst (run creating [] (strategy attributes_diff (web_task present false))).

End MoreSamples.

Definition module_check_mode (i : invocation) : bool :=
  match i with
  | Container m => check_mode m
  | FunctionNamespace m => check_mode m
  | InfoModule _ m => check_mode m
  end.

Ltac split_any_task t :=
  destruct t as [api wished|api wished]; destruct api as [[p cm] ap];
  unfold_modules;
  [destruct (scaleway_container.state wished)
  |destruct (scaleway_function_namespace.state wished)].

Ltac split_task t Hc :=
  destruct t as [api wished|api wished]; destruct api as [[p cm] ap];
  cbn in Hc; subst cm; unfold_modules;
  [destruct (scaleway_container.state wished)
  |destruct (scaleway_function_namespace.state wished)].

Ltac split_invocation i :=
  destruct i as [m|m|k m]; [| |destruct k]; unfold_modules;
  unfold listing_response, listing, http_listing, endpoint, region_of,
    wished_name, wished_state, lists_by_get, listing_key in *;
  [destruct (scaleway_container.p_state (params m))
  |destruct (scaleway_function_namespace.p_state (params m))| |].

(** ** Basic facts *)

Example dict_set_replaces_in_place :
  dict_set [("a", JInt 1); ("b", JInt 2)] "a" JNull = [("a", JNull); ("b", JInt 2)].
Proof. reflexivity. Qed.

Example dict_del_removes :
  dict_del [("a", JInt 1); ("redeploy", JBool false)] "redeploy" = [("a", JInt 1)].
Proof. reflexivity. Qed.

Example iterating_a_string_gives_characters :
  attr_iter (PyStr "abc") = ["a"; "b"; "c"] /\
  attr_iter (PyTuple ["abc"]) = ["abc"].
Proof. split; reflexivity. Qed.

Example empty_dict_lists_nothing :
  py_iter (JObj []) = Ok [] /\ py_iter JNull = Err TypeError.
Proof. split; reflexivity. Qed.

Example lookup_keeps_the_later_resource :
  result_bind (name_lookup [Samples.ns "old"; Samples.ns "new"])
    (fun m => Ok (m !! HStr "my-namespace")) = Ok (Some (Samples.ns "new")).
Proof. vm_compute. reflexivity. Qed.

Lemma dict_get_set_same (items : list (string * jvalue)) (k : string) (v : jvalue) :
  dict_get (dict_set items k v) k = Some v.
Proof.
  induction items as [|[k' v'] items IH]; cbn [dict_set dict_get].
  - rewrite String.eqb_refl. reflexivity.
  - destruct (String.eqb k' k) eqn:E; cbn [dict_get]; rewrite E; auto.
Qed.

(** A one-element tuple of attributes: the attribute, when the filtered
    description has it, holds the marker. *)
Lemma filter_tuple_redacts (summary : jvalue) (attr : string)
    (items : list (string * jvalue)) (v : jvalue) :
  filter_sensitive_attributes summary (PyTuple [attr]) = JObj items ->
  dict_get items attr = Some v ->
  v = SENSITIVE_VALUE.
Proof.
  destruct summary as [| | | | |its]; cbn; try discriminate.
  destruct (dict_get its attr) eqn:E; intros [= <-] Hget.
  - rewrite dict_get_set_same in Hget. congruence.
  - congruence.
Qed.

Lemma name_lookup_from_app (acc : gmap hkey jvalue) (l1 l2 : list jvalue) :
  name_lookup_from acc (l1 ++ l2)%list =
  result_bind (name_lookup_from acc l1) (fun m => name_lookup_from m l2).
Proof.
  revert acc; induction l1 as [|x l1 IH]; intros acc; [reflexivity|].
  cbn [app name_lookup_from].
  destruct (subscript x "name") as [v|e]; [|reflexivity].
  destruct (py_hash_key v) as [k|e]; [|reflexivity].
  apply IH.
Qed.

Lemma py_hash_key_str (v : jvalue) (n : string) :
  py_hash_key v = Ok (HStr n) -> v = JStr n.
Proof. destruct v as [| [] | | | |]; cbn; intros H; congruence. Qed.

(** Resources of another name leave the binding of [n] alone. *)
Lemma name_lookup_from_others (n : string) (l : list jvalue) :
  Forall (fun x => subscript x "name" <> Ok (JStr n)) l ->
  forall acc m, name_lookup_from acc l = Ok m -> m !! HStr n = acc !! HStr n.
Proof.
  induction 1 as [|x l Hx _ IH]; intros acc m; cbn [name_lookup_from].
  - congruence.
  - destruct (subscript x "name") as [v|e] eqn:Hv; [|discriminate].
    destruct (py_hash_key v) as [k|e] eqn:Hk; [|discriminate].
    intros Hm. rewrite (IH _ _ Hm).
    apply lookup_insert_ne. intros ->.
    apply py_hash_key_str in Hk. congruence.
Qed.

Lemma name_lookup_last (n : string) (l1 l2 : list jvalue) (r : jvalue)
    (m : gmap hkey jvalue) :
  subscript r "name" = Ok (JStr n) ->
  Forall (fun x => subscript x "name" <> Ok (JStr n)) l2 ->
  name_lookup (l1 ++ r :: l2)%list = Ok m ->
  m !! HStr n = Some r.
Proof.
  intros Hr Hl2. unfold name_lookup. rewrite name_lookup_from_app.
  destruct (name_lookup_from empty l1) as [m1|e]; [|discriminate].
  cbn [result_bind name_lookup_from]. rewrite Hr. cbn [py_hash_key].
  intros Hm. rewrite (name_lookup_from_others n l2 Hl2 _ _ Hm).
  apply lookup_insert_eq.
Qed.

Lemma name_lookup_from_miss (n : string) (l : list jvalue) :
  forall acc m, name_lookup_from acc l = Ok m -> m !! HStr n = None ->
  Forall (fun x => subscript x "name" <> Ok (JStr n)) l /\ acc !! HStr n = None.
Proof.
  induction l as [|x l IH]; intros acc m; cbn [name_lookup_from].
  - intros [= ->] Hm. split; [constructor|exact Hm].
  - destruct (subscript x "name") as [v|e] eqn:Hv; [|discriminate].
    destruct (py_hash_key v) as [k|e] eqn:Hk; [|discriminate].
    intros Hl Hm. destruct (IH _ _ Hl Hm) as [Hrest Hacc].
    destruct (decide (k = HStr n)) as [->|Hne].
    + rewrite lookup_insert_eq in Hacc. discriminate.
    + rewrite lookup_insert_ne in Hacc by exact Hne.
      split; [|exact Hacc].
      constructor; [|exact Hrest].
      intros Hx. rewrite Hv in Hx. injection Hx as ->.
      cbn in Hk. congruence.
Qed.

(** The lookup misses a name exactly when no listed resource bears it. *)
Lemma name_lookup_miss_iff (n : string) (l : list jvalue)
    (m : gmap hkey jvalue) :
  name_lookup l = Ok m ->
  m !! HStr n = None <-> Forall (fun x => subscript x "name" <> Ok (JStr n)) l.
Proof.
  intros Hl. split.
  - intros Hm. exact (proj1 (name_lookup_from_miss n l _ _ Hl Hm)).
  - intros Hall. rewrite (name_lookup_from_others n l Hall _ _ Hl).
    apply lookup_empty.
Qed.

(** The function namespace module, whose [SENSITIVE_ATTRIBUTES] is a tuple,
    never hands the attribute to the host unredacted. *)
Lemma function_namespace_result_is_redacted (helper : helper_t) (w : world)
    (m : AnsibleModule scaleway_function_namespace.params_t) (e : exit)
    (items : list (string * jvalue)) (v : jvalue) :
  snd (run w [] (scaleway_function_namespace.core helper m)) = Returned e ->
  result_value e = JObj items ->
  dict_get items "secret_environment_variables" = Some v ->
  v = SENSITIVE_VALUE.
Proof.
  unfold_modules.
  destruct (scaleway_function_namespace.p_state (params m)); exec.
  all: intros He Hv Hget; exec; cbn [result_value] in Hv.
  all: first [ exact (filter_tuple_redacts _ _ _ _ Hv Hget)
             | simplify_eq; discriminate Hget ].
Qed.

(** ** Redaction of secret attributes *)

(** C1, on the code: the container module does not redact.  Its
    [SENSITIVE_ATTRIBUTES] is written without the trailing comma, so it is
    a string and the output filter is handed its characters, none of which
    is an attribute of the description.  At this run (state present, no
    container [web] yet: it is created, the wait returns, and it is read
    back) the description reaches the host with
    [secret_environment_variables] as the API gave it, where the module's
    RETURN sample shows the marker. *)
Theorem container_result_keeps_secret_attribute (helper : helper_t) :
  exists e,
    snd (run (Samples.serve "containers" []
                (Samples.reply 200 Samples.web) (Samples.reply 200 Samples.created))
             [] (main helper (Container (Samples.web_module present false))))
      = Returned e /\
    result_key e = "container" /\
    subscript (result_value e) "secret_environment_variables"
      = Ok Samples.hashed_secrets /\
    Samples.hashed_secrets <> SENSITIVE_VALUE.
Proof.
  eexists. split; [vm_compute; reflexivity|].
  split; [reflexivity|].
  split; [reflexivity|discriminate].
Qed.

(** The same string is the [SENSITIVE_ATTRIBUTES] of the two info modules:
    a function namespace is reported with the attribute as the API gave
    it. *)
Lemma function_namespace_info_keeps_secret_attribute :
  exists e,
    snd (run (Samples.serve "namespaces" [Samples.ns "531a1fd7"]
                (Samples.reply 200 (Samples.ns "531a1fd7"))
                (Samples.reply 200 JNull))
             [] (info_core function_namespace_info
                   {| params := {| p_project_id := "my-project";
                                   p_region := "fr-par";
                                   p_name := "my-namespace" |};
                      check_mode := false |}))
      = Returned e /\
    subscript (result_value e) "secret_environment_variables"
      = Ok Samples.hashed_secrets.
Proof.
  eexists. split; [vm_compute; reflexivity|reflexivity].
Qed.

(** ** Failure on a non-2xx answer *)

(** C2, on the code: the read that follows a create (and likewise the one
    that follows an update) is returned without a look at [response.ok].
    At this run the container is created, the wait returns, the read of the
    new container is answered 500, and the module exits normally with
    [changed] true and the error body as the container's description. *)
Theorem unchecked_read_after_create (helper : helper_t) :
  let r := run (Samples.serve "containers" []
                  (Samples.reply 500 Samples.server_error)
                  (Samples.reply 200 Samples.created))
               [] (main helper (Container (Samples.web_module present false))) in
  last (fst r) =
    Some (EvHttp (Get (Item "containers/v1beta1/regions/fr-par/containers"
                            (JStr "c9070eb0")))
                 (Samples.reply 500 Samples.server_error)) /\
  ok (Samples.reply 500 Samples.server_error) = false /\
  exists e,
    snd r = Returned e /\ changed e = true /\
    subscript (result_value e) "message" = Ok (JStr "internal error").
Proof.
  cbv zeta. split; [vm_compute; reflexivity|].
  split; [reflexivity|].
  eexists. split; [vm_compute; reflexivity|].
  split; reflexivity.
Qed.

(** The info modules do test the read of an item: the same answer there
    ends in [fail_json]. *)
Lemma info_read_is_checked :
  exists msg,
    snd (run (Samples.serve "namespaces"
                [JObj [("id", JStr "0d7d5270"); ("name", JStr "my-registry")]]
                (Samples.reply 500 Samples.server_error)
                (Samples.reply 200 JNull))
             [] (info_core container_registry_info Samples.info_module_params))
      = Failed msg.
Proof. eexists. vm_compute. reflexivity. Qed.

(** ** Check mode *)

(** C3, on the code: the container module does not reach its check-mode
    return on the update path.  [present_strategy] calls the shared helper
    with the keywords [target_cn] and [wished_cn] (lines 327-330), which
    are not parameters of the function that the function namespace module
    calls with [target] and [wished]; the call is a [TypeError] and comes
    before the check-mode test.  At this run (check mode, state present,
    the container [web] listed with another description) the run is the
    listing alone and ends in the exception, where the claim has the
    strategy return [changed] true with a status message; the same run of
    the function namespace module returns it. *)
Theorem check_mode_update_of_a_container_raises :
  (exists ev,
     run MoreSamples.updating []
         (strategy attributes_diff (MoreSamples.web_task present true))
     = ([ev], Raised TypeError) /\ is_listing ev = true) /\
  subscript MoreSamples.stale_web "description" = Ok (JStr "old") /\
  scaleway_container.description
    (scaleway_container.wished_container (Samples.web_module present true)) = "" /\
  snd (run MoreSamples.renewing []
         (strategy attributes_diff (MoreSamples.ns_task present true)))
  = Returned (true, JObj [("status",
                           JStr "Function namespace attributes would be changed.")]).
Proof.
  split; [eexists; split; [vm_compute; reflexivity|reflexivity]|].
  split; [reflexivity|].
  split; [reflexivity|vm_compute; reflexivity].
Qed.

(** ** Idempotence *)

(** C4, on the code: a converged container is not reported unchanged.  On
    the found branch [present_strategy] of the container module calls the
    shared helper with the keywords [target_cn] and [wished_cn] (lines
    327-330), not the [target] and [wished] of the function namespace
    module's call (lines 219-222) to the same function, so the call is a
    [TypeError].  At this run (state present, the container [web] listed
    with every attribute as wished) no create, update or delete is issued,
    but the module ends in the exception and returns no [changed]; the same
    run of the function namespace module exits with [changed] false. *)
Theorem converged_container_run_raises :
  (exists ev,
     run MoreSamples.settled_web []
         (main attributes_diff (Container (Samples.web_module present false)))
     = ([ev], Raised TypeError) /\ is_listing ev = true) /\
  listing MoreSamples.settled_web (Container (Samples.web_module present false))
    = Some [Samples.web] /\
  diff_attributes Samples.web
    (JObj (scaleway_container.payload_from_wished_cn
             (scaleway_container.wished_container
                (Samples.web_module present false))))
    scaleway_container.VERIFIABLE_MUTABLE_ATTRIBUTES
    scaleway_container.MUTABLE_ATTRIBUTES = Ok (JObj []) /\
  exists e,
    snd (run MoreSamples.settled []
           (main attributes_diff
              (FunctionNamespace (Samples.ns_module present false))))
      = Returned e /\ changed e = false.
Proof.
  split; [eexists; split; [vm_compute; reflexivity|reflexivity]|].
  split; [vm_compute; reflexivity|].
  split; [vm_compute; reflexivity|].
  eexists. split; [vm_compute; reflexivity|reflexivity].
Qed.

(** ** The info modules *)

(** C5.  When the listing of an info module succeeds, every listed resource
    has a name, and none bears the requested name, the run is the listing
    call alone and ends in [fail_json]; the message names the requested
    resource and the project, and nothing is returned to the host. *)
Theorem info_lookup_miss_is_fatal (w : world) (k : info_module)
    (m : AnsibleModule info_params) (l : list jvalue)
    (lookup : gmap hkey jvalue) :
  listing w (InfoModule k m) = Some l ->
  name_lookup l = Ok lookup ->
  Forall (fun x => subscript x "name" <> Ok (JStr (p_name (params m)))) l ->
  exists r pre mid post,
    run w [] (info_core k m) =
      ([EvHttp (Get (Collection (endpoint (InfoModule k m)))) r],
       Failed [Lit (pre +:+ p_name (params m) +:+ mid
                      +:+ p_project_id (params m) +:+ post)]).
Proof.
  intros Hl Hn Hm.
  apply (name_lookup_miss_iff _ _ _ Hn) in Hm.
  destruct k; unfold_modules;
    unfold listing, http_listing, endpoint, region_of in *.
  all: exec.
  all: eexists _, _, _, _; reflexivity.
Qed.

Lemma info_lookup_miss_is_fatal_witness :
  let w := Samples.serve "namespaces" []
             (Samples.reply 200 JNull) (Samples.reply 200 JNull) in
  listing w (InfoModule container_registry_info Samples.info_module_params) = Some [] /\
  snd (run w [] (info_core container_registry_info Samples.info_module_params)) =
    Failed [Lit "Error during container registries lookup: Unable to find container registry named 'my-registry' in project 'my-project'"] /\
  exists r pre mid post,
    run w [] (info_core container_registry_info Samples.info_module_params) =
      ([EvHttp (Get (Collection "registry/v1/regions/fr-par/namespaces")) r],
       Failed [Lit (pre +:+ "my-registry" +:+ mid +:+ "my-project" +:+ post)]).
Proof.
  cbv zeta.
  split; [vm_compute; reflexivity|].
  split; [vm_compute; reflexivity|].
  apply (info_lookup_miss_is_fatal
           (Samples.serve "namespaces" []
              (Samples.reply 200 JNull) (Samples.reply 200 JNull))
           container_registry_info Samples.info_module_params [] empty).
  - vm_compute; reflexivity.
  - reflexivity.
  - constructor.
Defined.

(** C9.  An info module issues nothing but GET calls and every exit reports
    [changed] false, whatever the world answers and whatever
    [module.check_mode] is. *)
Theorem info_modules_are_read_only (w : world) (k : info_module)
    (m : AnsibleModule info_params) :
  Forall (fun ev => is_get ev = true /\ is_mutation ev = false)
         (fst (run w [] (info_core k m))) /\
  (forall e, snd (run w [] (info_core k m)) = Returned e -> changed e = false).
Proof.
  destruct k; unfold_modules.
  all: exec.
  all: split; [repeat constructor | intros; exec; reflexivity].
Qed.

(** ** Endpoints *)


(** ** Order of the calls *)

(** C7.  Outside check mode a strategy of a mutating module starts with the
    listing, so every create, update or delete comes after it; every create
    or update the API accepted is directly followed by the wait for a
    stable state on the module's endpoint, and when that wait returns, the
    read of the written resource follows and ends the run (the id of a
    created resource is the ["id"] of the creation response); and when the
    strategy returns after such a create or update, what it returns is the
    body of that read with [changed] true. *)
Theorem reconciliation_order (helper : helper_t) (w : world) (t : task) :
  task_check_mode t = false ->
  (exists ev rest, fst (run w [] (strategy helper t)) = ev :: rest /\
                   is_listing ev = true) /\
  after_each_write
    (fun ev rest => exists rs r rest',
       rest = EvWait (task_api_path t) rs (task_stable_states t) false r :: rest' /\
       (r = None -> forall id, written_id ev = Ok id ->
        exists resp, rest' = [EvHttp (Get (Item (task_api_path t) id)) resp]))
    (fst (run w [] (strategy helper t))) /\
  (forall c s, snd (run w [] (strategy helper t)) = Returned (c, s) ->
     after_each_write
       (fun ev rest => exists wt id r,
          rest = [wt; EvHttp (Get (Item (task_api_path t) id)) r] /\
          written_id ev = Ok id /\ s = json r /\ c = true)
       (fst (run w [] (strategy helper t)))).
Proof.
  intros Hc.
  destruct t as [api wished|api wished]; destruct api as [[p cm] ap];
    cbn in Hc; subst cm; unfold_modules;
    [destruct (scaleway_container.state wished)
    |destruct (scaleway_function_namespace.state wished)].
  all: exec.
  all: split; [eexists _, _; split; reflexivity|].
  all: split; [|intros c s Hret; exec];
    cbn [after_each_write is_write_ok written_id task_api_path
         task_stable_states];
    repeat split; try discriminate; try congruence; intros.
  all: try ok_contradiction.
  all: try (eexists _, _, _; repeat split; try reflexivity; eassumption).
  all: eexists _, _, _; split; [reflexivity|].
  all: intros Hr id Hid; cbn [api_path] in *; simplify_eq.
  all: try match goal with
           | H1 : ?x = Ok ?a, H2 : ?x = Ok ?b |- _ =>
               assert (a = b) by congruence; subst
           end.
  all: first [eexists; reflexivity | congruence].
Qed.

Lemma reconciliation_order_witness :
  let w := Samples.serve "containers" []
             (Samples.reply 200 Samples.web) (Samples.reply 200 Samples.created) in
  let t := ContainerTask (Samples.web_api false)
             (scaleway_container.wished_container (Samples.web_module present false)) in
  task_check_mode t = false /\
  map is_write_ok (fst (run w [] (strategy attributes_diff t))) =
    [false; false; true; false; false] /\
  snd (run w [] (strategy attributes_diff t)) = Returned (true, Samples.web) /\
  after_each_write
    (fun ev rest => exists wt id r,
       rest = [wt; EvHttp (Get (Item (task_api_path t) id)) r] /\
       written_id ev = Ok id /\ Samples.web = json r /\ true = true)
    (fst (run w [] (strategy attributes_diff t))).
Proof.
  cbv zeta.
  split; [reflexivity|].
  split; [vm_compute; reflexivity|].
  split; [vm_compute; reflexivity|].
  apply (reconciliation_order attributes_diff
           (Samples.serve "containers" []
              (Samples.reply 200 Samples.web) (Samples.reply 200 Samples.created))
           (ContainerTask (Samples.web_api false)
              (scaleway_container.wished_container
                 (Samples.web_module present false)))).
  - reflexivity.
  - vm_compute; reflexivity.
Defined.

(** ** Resources of the same name *)

(** C8.  When the listing holds the resource [r] of the wished name and no
    resource of that name after it, the lookup built from the listing binds
    the name to [r], whatever comes before [r]; and every later call of the
    run is about [r]: a read, update or delete addresses the ["id"] of [r],
    a wait polls [r], and nothing is created. *)
Theorem duplicate_names_last_wins (helper : helper_t) (w : world)
    (i : invocation) (l1 l2 : list jvalue) (r : jvalue) :
  listing w i = Some (l1 ++ r :: l2)%list ->
  subscript r "name" = Ok (JStr (wished_name i)) ->
  Forall (fun x => subscript x "name" <> Ok (JStr (wished_name i))) l2 ->
  (forall lookup, name_lookup (l1 ++ r :: l2)%list = Ok lookup ->
                  lookup !! HStr (wished_name i) = Some r) /\
  Forall (targets r) (fst (run w [] (main helper i))).
Proof.
  intros Hl Hr Hl2.
  assert (Hlast : forall lookup,
             name_lookup (l1 ++ r :: l2)%list = Ok lookup ->
             lookup !! HStr (wished_name i) = Some r)
    by (intros lookup; apply name_lookup_last; assumption).
  split; [exact Hlast|].
  destruct (name_lookup (l1 ++ r :: l2)%list) as [lookup|e] eqn:Hn;
    [specialize (Hlast _ eq_refl)|clear Hlast].
  all: destruct i as [m|m|k m]; [| |destruct k]; unfold_modules;
    unfold listing, http_listing, endpoint, region_of, wished_name in *.
  all: exec.
  all: repeat constructor; cbn [targets]; congruence.
Qed.

Lemma duplicate_names_last_wins_witness :
  let w := Samples.serve "namespaces" [Samples.ns "old"; Samples.ns "new"]
             (Samples.reply 200 (Samples.ns "new")) (Samples.reply 204 JNull) in
  let i := FunctionNamespace (Samples.ns_module absent false) in
  listing w i = Some [Samples.ns "old"; Samples.ns "new"] /\
  existsb is_mutation (fst (run w [] (main attributes_diff i))) = true /\
  (forall lookup,
     name_lookup [Samples.ns "old"; Samples.ns "new"] = Ok lookup ->
     lookup !! HStr "my-namespace" = Some (Samples.ns "new")) /\
  Forall (targets (Samples.ns "new")) (fst (run w [] (main attributes_diff i))).
Proof.
  cbv zeta.
  split; [vm_compute; reflexivity|].
  split; [vm_compute; reflexivity|].
  apply (duplicate_names_last_wins attributes_diff
           (Samples.serve "namespaces" [Samples.ns "old"; Samples.ns "new"]
              (Samples.reply 200 (Samples.ns "new")) (Samples.reply 204 JNull))
           (FunctionNamespace (Samples.ns_module absent false))
           [Samples.ns "old"] [] (Samples.ns "new")).
  - vm_compute; reflexivity.
  - reflexivity.
  - constructor.
Defined.

(** ** Creation payload *)

(** C10.  Every POST of the container module's present strategy goes to the
    collection with the wished payload less its [redeploy] key, so the
    posted dict has no [redeploy]; the payload the strategy builds, which
    is the one handed to the diffing helper on the update path, has it. *)
Theorem creation_payload_has_no_redeploy (helper : helper_t) (w : world)
    (api : Scaleway scaleway_container.params_t)
    (wished_cn : scaleway_container.wished) :
  Forall
    (fun ev => forall p data r, ev = EvHttp (Post p data) r ->
       p = Collection (api_path api) /\
       data = JObj (dict_del (scaleway_container.payload_from_wished_cn wished_cn)
                             "redeploy") /\
       subscript data "redeploy" = Err (KeyError "redeploy"))
    (fst (run w [] (scaleway_container.present_strategy helper api wished_cn))) /\
  dict_get (scaleway_container.payload_from_wished_cn wished_cn) "redeploy" =
    Some (JBool (scaleway_container.redeploy wished_cn)).
Proof.
  split; [|reflexivity].
  unfold_modules. exec.
  all: repeat constructor; intros; simplify_eq; repeat split; reflexivity.
Qed.

(** A run that posts: the creation of [web]. *)
Example creation_posts_once :
  map is_mutation
    (fst (run (Samples.serve "containers" []
                 (Samples.reply 200 Samples.web) (Samples.reply 200 Samples.created))
              [] (scaleway_container.present_strategy attributes_diff
                    (Samples.web_api false)
                    (scaleway_container.wished_container
                       (Samples.web_module present false)))))
  = [false; false; true; false; false].
Proof. vm_compute. reflexivity. Qed.

(** ** Further properties of the modules

    Positions in a trace: a property of every decomposition
    [pre ++ ev :: post] follows from its check at each position. *)

Lemma at_each_split (P : list event -> event -> list event -> Prop)
    (tr : list event) :
  forall pre, at_each P pre tr ->
  forall l1 ev l2, tr = (l1 ++ ev :: l2)%list -> P (pre ++ l1)%list ev l2.
Proof.
  induction tr as [|x tr IH]; intros pre H l1 ev l2 E.
  - destruct l1; discriminate.
  - destruct H as [Hx Hrest]. destruct l1 as [|y l1]; cbn in E; simplify_eq.
    + rewrite app_nil_r. exact Hx.
    + specialize (IH _ Hrest l1 ev l2 eq_refl).
      rewrite <- app_assoc in IH. exact IH.
Qed.

Lemma at_each_nil (P : list event -> event -> list event -> Prop)
    (tr : list event) :
  at_each P [] tr ->
  forall pre ev post, tr = (pre ++ ev :: post)%list -> P pre ev post.
Proof. intros H pre ev post E. exact (at_each_split P tr [] H pre ev post E). Qed.

Lemma dict_get_del_other (items : list (string * jvalue)) (k k' : string) :
  k' <> k -> dict_get (dict_del items k) k' = dict_get items k'.
Proof.
  intros Hne. induction items as [|[k0 v0] items IH]; [reflexivity|].
  cbn [dict_del dict_get].
  destruct (String.eqb k0 k) eqn:E.
  - apply String.eqb_eq in E. subst k0.
    destruct (String.eqb k k') eqn:E'; [|exact IH].
    apply String.eqb_eq in E'. congruence.
  - cbn [dict_get]. rewrite IH. reflexivity.
Qed.

(** A run of [bind p f] is the run of [p] followed, when [p] returns,
    by the run of [f]. *)
Lemma run_bind {A B} (w : world) (p : prog A) (f : A -> prog B) :
  forall hist,
  run w hist (bind p f) =
  match snd (run w hist p) with
  | Returned a => run w (fst (run w hist p)) (f a)
  | Failed msg => (fst (run w hist p), Failed msg)
  | Raised e => (fst (run w hist p), Raised e)
  end.
Proof.
  induction p as [a|msg|e|rq k IH|ap rs st fw k IH|ap key k IH|x k IH];
    intros hist; cbn [bind run fst snd]; auto.
Qed.

Lemma name_lookup_from_sound (l : list jvalue) :
  forall acc m, name_lookup_from acc l = Ok m ->
  forall n r, m !! HStr n = Some r ->
  (In r l /\ subscript r "name" = Ok (JStr n)) \/ acc !! HStr n = Some r.
Proof.
  induction l as [|x l IH]; intros acc m; cbn [name_lookup_from].
  - intros [= ->] n r Hr. right. exact Hr.
  - destruct (subscript x "name") as [v|e] eqn:Hv; [|discriminate].
    destruct (py_hash_key v) as [k|e] eqn:Hk; [|discriminate].
    intros Hl n r Hr.
    destruct (IH _ _ Hl n r Hr) as [[Hin Hn]|Hacc].
    + left. split; [right; exact Hin|exact Hn].
    + destruct (decide (k = HStr n)) as [->|Hne].
      * rewrite lookup_insert_eq in Hacc. injection Hacc as <-.
        apply py_hash_key_str in Hk. subst v.
        left. split; [left; reflexivity|exact Hv].
      * rewrite lookup_insert_ne in Hacc by exact Hne. right. exact Hacc.
Qed.

Lemma name_lookup_from_total (l : list jvalue) :
  forall acc,
  (exists m, name_lookup_from acc l = Ok m) <-> Forall has_name l.
Proof.
  induction l as [|x l IH]; intros acc; cbn [name_lookup_from].
  - split; [constructor|eauto].
  - split.
    + intros [m Hm].
      destruct (subscript x "name") as [v|e] eqn:Hv; [|discriminate].
      destruct (py_hash_key v) as [k|e] eqn:Hk; [|discriminate].
      constructor.
      * exists v, k. split; assumption.
      * apply (IH (<[k:=x]> acc)). eauto.
    + intros H. apply Forall_cons in H as [(v & k & Hv & Hk) Hrest].
      rewrite Hv, Hk. apply IH. exact Hrest.
Qed.

(** *** What a run may send *)

(** X1.  In check mode a run of a strategy of a mutating module is the
    listing call and nothing else: no wait, no warning, no read. *)
Theorem check_mode_run_is_the_listing_alone (helper : helper_t) (w : world)
    (t : task) :
  task_check_mode t = true ->
  exists ev, fst (run w [] (strategy helper t)) = [ev] /\ is_listing ev = true.
Proof.
  intros Hc. split_task t Hc.
  all: exec.
  all: eexists; split; reflexivity.
Qed.

Lemma check_mode_run_is_the_listing_alone_witness :
  task_check_mode (MoreSamples.web_task present true) = true /\
  exists ev,
    fst (run MoreSamples.creating []
           (strategy attributes_diff (MoreSamples.web_task present true))) = [ev] /\
    is_listing ev = true.
Proof.
  split; [reflexivity|].
  apply (check_mode_run_is_the_listing_alone attributes_diff MoreSamples.creating
           (MoreSamples.web_task present true)).
  reflexivity.
Defined.

(** X2.  A run of any module issues at most one POST, PATCH or DELETE and
    at most five calls in all: nothing is retried. *)
Theorem at_most_one_write_per_run (helper : helper_t) (w : world)
    (i : invocation) :
  (length (List.filter is_mutation (fst (run w [] (main helper i)))) <= 1)%nat /\
  (length (fst (run w [] (main helper i))) <= 5)%nat.
Proof.
  destruct i as [m|m|k m]; [| |destruct k]; unfold_modules;
    [destruct (scaleway_container.p_state (params m))
    |destruct (scaleway_function_namespace.p_state (params m))| |].
  all: exec.
  all: cbn; lia.
Qed.

(** X3.  Outside check mode the [changed] a strategy returns is true
    exactly when the run holds a POST, PATCH or DELETE that the API
    accepted. *)
Theorem changed_tells_whether_a_write_was_accepted (helper : helper_t)
    (w : world) (t : task) (c : bool) (s : jvalue) :
  task_check_mode t = false ->
  snd (run w [] (strategy helper t)) = Returned (c, s) ->
  c = existsb (fun ev => is_mutation ev && event_ok ev)
        (fst (run w [] (strategy helper t))).
Proof.
  intros Hc. split_task t Hc.
  all: exec.
  all: intros Hr; exec; cbn [existsb is_mutation event_ok andb orb].
  all: repeat match goal with
       | H : negb ?x = false |- _ => apply negb_false_iff in H; rewrite H
       end; reflexivity.
Qed.

Lemma changed_tells_whether_a_write_was_accepted_witness :
  snd (run MoreSamples.creating []
         (strategy attributes_diff (MoreSamples.web_task present false)))
    = Returned (true, Samples.web) /\
  true = existsb (fun ev => is_mutation ev && event_ok ev)
           (fst (run MoreSamples.creating []
                   (strategy attributes_diff (MoreSamples.web_task present false)))).
Proof.
  split; [vm_compute; reflexivity|].
  apply (changed_tells_whether_a_write_was_accepted attributes_diff
           MoreSamples.creating (MoreSamples.web_task present false)
           true Samples.web).
  - reflexivity.
  - vm_compute; reflexivity.
Defined.

(** X4.  The [state] bounds the calls of a run: with [absent] nothing is
    posted, patched or warned about; with [present] nothing is deleted and
    no wait is forced; an info module only issues GET calls. *)
Theorem state_bounds_the_calls (helper : helper_t) (w : world) (i : invocation) :
  Forall (fun ev => allowed_in_state (wished_state i) ev = true)
    (fst (run w [] (main helper i))).
Proof.
  destruct i as [m|m|k m]; [| |destruct k]; unfold_modules; unfold wished_state;
    [destruct (scaleway_container.p_state (params m))
    |destruct (scaleway_function_namespace.p_state (params m))| |].
  all: exec.
  all: repeat constructor.
Qed.

(** X5.  A run with state [absent] is decided by the module, the region,
    the name and the check mode alone: the other parameters
    ([namespace_id], [project_id], the attributes) and the diffing helper
    have no part in it, so the resource to delete is chosen by its name
    only. *)
Theorem absent_run_depends_on_name_and_region_only (helper1 helper2 : helper_t)
    (w : world) (i1 i2 : invocation) :
  wished_state i1 = Some absent ->
  wished_state i2 = Some absent ->
  exit_key i1 = exit_key i2 ->
  region_of i1 = region_of i2 ->
  wished_name i1 = wished_name i2 ->
  module_check_mode i1 = module_check_mode i2 ->
  run w [] (main helper1 i1) = run w [] (main helper2 i2).
Proof.
  intros Hs1 Hs2 Hk Hr Hn Hc.
  destruct i1 as [m1|m1|k1 m1]; destruct i2 as [m2|m2|k2 m2];
    try discriminate; cbn in Hs1, Hs2, Hr, Hn, Hc.
  all: injection Hs1 as Hs1; injection Hs2 as Hs2.
  all: unfold_modules; rewrite Hs1, Hs2;
    cbn [scaleway_container.state_strategy scaleway_container.state
         scaleway_function_namespace.state];
    unfold scaleway_container.absent_strategy,
      scaleway_function_namespace.absent_strategy;
    cbn [api_path module check_mode scaleway_container.name
         scaleway_function_namespace.name];
    rewrite Hr, Hn, Hc; reflexivity.
Qed.

Lemma absent_run_depends_on_name_and_region_only_witness :
  let i1 := FunctionNamespace (Samples.ns_module absent false) in
  let i2 := FunctionNamespace MoreSamples.other_ns_module in
  wished_state i1 = Some absent /\
  existsb is_mutation
    (fst (run MoreSamples.deleting [] (main attributes_diff i1))) = true /\
  run MoreSamples.deleting [] (main attributes_diff i1) =
    run MoreSamples.deleting [] (main (fun _ => Err TypeError) i2).
Proof.
  cbv zeta.
  split; [reflexivity|].
  split; [vm_compute; reflexivity|].
  apply (absent_run_depends_on_name_and_region_only attributes_diff
           (fun _ => Err TypeError) MoreSamples.deleting
           (FunctionNamespace (Samples.ns_module absent false))
           (FunctionNamespace MoreSamples.other_ns_module)).
  all: reflexivity.
Defined.

(** *** The listing and the lookup *)

(** X6.  When the listing GET of the container module or of an info module
    is not a success, the run is that call alone; it ends in [fail_json]
    with the status code and the ["message"] of the body, and in the
    uncaught exception of [response.json["message"]] when the body has no
    such key or is no dict. *)
Theorem refused_listing_ends_the_run (helper : helper_t) (w : world)
    (i : invocation) :
  lists_by_get i = true ->
  ok (listing_response w i) = false ->
  fst (run w [] (main helper i)) =
    [EvHttp (Get (Collection (endpoint i))) (listing_response w i)] /\
  match subscript (json (listing_response w i)) "message" with
  | Ok m =>
      exists pre,
        snd (run w [] (main helper i)) =
          Failed [Lit pre; Fmt (JInt (status_code (listing_response w i)));
                  Lit ": "; Fmt m; Lit "]"]
  | Err e => snd (run w [] (main helper i)) = Raised e
  end.
Proof.
  intros Hg Hok. split_invocation i; try discriminate.
  all: exec.
  all: split; [reflexivity|]; try reflexivity; eexists; reflexivity.
Qed.

Lemma refused_listing_ends_the_run_witness :
  let w := MoreSamples.refusing (JObj [("message", JStr "denied")]) in
  let i := InfoModule container_registry_info Samples.info_module_params in
  lists_by_get i = true /\
  ok (listing_response w i) = false /\
  fst (run w [] (main attributes_diff i)) =
    [EvHttp (Get (Collection (endpoint i))) (listing_response w i)].
Proof.
  cbv zeta.
  split; [reflexivity|]. split; [reflexivity|].
  apply (refused_listing_ends_the_run attributes_diff
           (MoreSamples.refusing (JObj [("message", JStr "denied")]))
           (InfoModule container_registry_info Samples.info_module_params)).
  - reflexivity.
  - reflexivity.
Defined.

(** X7.  When the listing GET succeeds but its body has no entry under the
    module's key, or the entry cannot be iterated, the run is that call
    alone and ends in the uncaught exception. *)
Theorem listing_without_collection_raises (helper : helper_t) (w : world)
    (i : invocation) (e : exn) :
  lists_by_get i = true ->
  ok (listing_response w i) = true ->
  result_bind (subscript (json (listing_response w i)) (listing_key i)) py_iter
    = Err e ->
  run w [] (main helper i) =
    ([EvHttp (Get (Collection (endpoint i))) (listing_response w i)], Raised e).
Proof.
  intros Hg Hok He. split_invocation i; try discriminate.
  all: unfold result_bind in He; exec; try discriminate.
  all: reflexivity.
Qed.

Lemma listing_without_collection_raises_witness :
  let w := MoreSamples.answering (JObj []) in
  let i := Container (Samples.web_module present false) in
  ok (listing_response w i) = true /\
  snd (run w [] (main attributes_diff i)) = Raised (KeyError "containers").
Proof.
  cbv zeta.
  split; [reflexivity|].
  rewrite (listing_without_collection_raises attributes_diff
             (MoreSamples.answering (JObj []))
             (Container (Samples.web_module present false))
             (KeyError "containers")); reflexivity.
Defined.

(** X8.  When a listed resource has no ["name"], or a name that cannot be
    a dict key, building the lookup raises: the run is the listing alone and
    ends in that exception. *)
Theorem unnamed_resource_raises (helper : helper_t) (w : world)
    (i : invocation) (l : list jvalue) (e : exn) :
  listing w i = Some l ->
  name_lookup l = Err e ->
  snd (run w [] (main helper i)) = Raised e /\
  exists ev, fst (run w [] (main helper i)) = [ev] /\ is_listing ev = true.
Proof.
  intros Hl He. split_invocation i.
  all: exec.
  all: split; [reflexivity|eexists; split; reflexivity].
Qed.

Lemma unnamed_resource_raises_witness :
  let w := MoreSamples.answering
             (JObj [("namespaces", JList [JObj [("id", JStr "0d7d5270")]])]) in
  let i := InfoModule container_registry_info Samples.info_module_params in
  listing w i = Some [JObj [("id", JStr "0d7d5270")]] /\
  snd (run w [] (main attributes_diff i)) = Raised (KeyError "name").
Proof.
  cbv zeta.
  split; [reflexivity|].
  apply (unnamed_resource_raises attributes_diff
           (MoreSamples.answering
              (JObj [("namespaces", JList [JObj [("id", JStr "0d7d5270")]])]))
           (InfoModule container_registry_info Samples.info_module_params)
           [JObj [("id", JStr "0d7d5270")]]).
  - reflexivity.
  - reflexivity.
Defined.

(** X9.  What the lookup binds to a name is a resource of the listing
    whose ["name"] is that string. *)
Theorem lookup_binds_a_listed_resource_of_that_name (l : list jvalue)
    (m : gmap hkey jvalue) (n : string) (r : jvalue) :
  name_lookup l = Ok m ->
  m !! HStr n = Some r ->
  In r l /\ subscript r "name" = Ok (JStr n).
Proof.
  intros Hl Hr.
  destruct (name_lookup_from_sound l _ _ Hl n r Hr) as [H|H]; [exact H|].
  rewrite lookup_empty in H. discriminate.
Qed.

Lemma lookup_binds_a_listed_resource_of_that_name_witness :
  let l := [Samples.ns "old"; Samples.ns "new"] in
  let m := <[HStr "my-namespace" := Samples.ns "new"]>
             (<[HStr "my-namespace" := Samples.ns "old"]> (empty : gmap hkey jvalue)) in
  name_lookup l = Ok m /\
  m !! HStr "my-namespace" = Some (Samples.ns "new") /\
  In (Samples.ns "new") l /\
  subscript (Samples.ns "new") "name" = Ok (JStr "my-namespace").
Proof.
  cbv zeta.
  split; [reflexivity|]. split; [vm_compute; reflexivity|].
  apply (lookup_binds_a_listed_resource_of_that_name
           [Samples.ns "old"; Samples.ns "new"]
           (<[HStr "my-namespace" := Samples.ns "new"]>
              (<[HStr "my-namespace" := Samples.ns "old"]> empty))).
  - reflexivity.
  - vm_compute; reflexivity.
Defined.

(** X10.  The lookup has no binding for a name exactly when no listed
    resource bears it. *)
Theorem lookup_misses_exactly_the_unlisted_names (l : list jvalue)
    (m : gmap hkey jvalue) (n : string) :
  name_lookup l = Ok m ->
  (m !! HStr n = None <->
   forall r, In r l -> subscript r "name" <> Ok (JStr n)).
Proof.
  intros Hl. rewrite (name_lookup_miss_iff n l m Hl).
  apply List.Forall_forall.
Qed.

Lemma lookup_misses_exactly_the_unlisted_names_witness :
  let l := [Samples.ns "old"; Samples.ns "new"] in
  let m := <[HStr "my-namespace" := Samples.ns "new"]>
             (<[HStr "my-namespace" := Samples.ns "old"]> (empty : gmap hkey jvalue)) in
  name_lookup l = Ok m /\
  (m !! HStr "other" = None <->
   forall r, In r l -> subscript r "name" <> Ok (JStr "other")).
Proof.
  cbv zeta.
  split; [reflexivity|].
  apply (lookup_misses_exactly_the_unlisted_names
           [Samples.ns "old"; Samples.ns "new"]
           (<[HStr "my-namespace" := Samples.ns "new"]>
              (<[HStr "my-namespace" := Samples.ns "old"]> empty))
           "other").
  reflexivity.
Defined.

(** X11.  The lookup is built, without an exception, exactly when every
    listed resource has a ["name"] that can be a dict key. *)
Theorem lookup_is_built_exactly_when_all_are_named (l : list jvalue) :
  (exists m, name_lookup l = Ok m) <-> Forall has_name l.
Proof. apply name_lookup_from_total. Qed.

(** *** Creation *)

(** X12.  A POST goes to the collection and is the third call of its run:
    before it come the listing and an [api.warn] of the very dict that is
    posted, secret values included. *)
Theorem creation_is_announced_by_a_warning (helper : helper_t) (w : world)
    (t : task) (pre post : list event) (p : path) (d : jvalue) (r : Response) :
  fst (run w [] (strategy helper t)) = (pre ++ EvHttp (Post p d) r :: post)%list ->
  p = Collection (task_api_path t) /\
  exists ev, is_listing ev = true /\ pre = [ev; EvWarn d].
Proof.
  revert pre p d r post.
  enough (H : at_each
            (fun pre ev post => forall p d r, ev = EvHttp (Post p d) r ->
               p = Collection (task_api_path t) /\
               exists ev, is_listing ev = true /\ pre = [ev; EvWarn d])
            [] (fst (run w [] (strategy helper t))))
    by (intros pre p d r post E; exact (at_each_nil _ _ H pre _ post E p d r eq_refl)).
  split_any_task t.
  all: exec.
  all: cbn [at_each app]; repeat split; intros; simplify_eq; try reflexivity.
  all: eexists; split; [|reflexivity]; reflexivity.
Qed.

Lemma creation_is_announced_by_a_warning_witness :
  let tr := MoreSamples.creating_trace in
  let ev := nth_event 2 tr in
  tr = (take 2 tr
        ++ EvHttp (Post (event_path ev) (event_data ev)) (event_response ev)
        :: drop 3 tr)%list /\
  event_path ev = Collection (task_api_path (MoreSamples.web_task present false)) /\
  exists l, is_listing l = true /\ take 2 tr = [l; EvWarn (event_data ev)].
Proof.
  cbv zeta.
  split; [vm_compute; reflexivity|].
  apply (creation_is_announced_by_a_warning attributes_diff MoreSamples.creating
           (MoreSamples.web_task present false)
           (take 2 MoreSamples.creating_trace)
           (drop 3 MoreSamples.creating_trace)
           (event_path (nth_event 2 MoreSamples.creating_trace))
           (event_data (nth_event 2 MoreSamples.creating_trace))
           (event_response (nth_event 2 MoreSamples.creating_trace))).
  vm_compute; reflexivity.
Defined.

(** X13.  The dict that is posted agrees with the payload built from the
    wished resource on every key but [redeploy], and its
    [secret_environment_variables] is the list of [{key, value}] dicts of
    the caller's secrets, in order and in clear. *)
Theorem creation_sends_the_wished_payload (helper : helper_t) (w : world)
    (t : task) (pre post : list event) (p : path) (d : jvalue) (r : Response) :
  fst (run w [] (strategy helper t)) = (pre ++ EvHttp (Post p d) r :: post)%list ->
  (forall k, k <> "redeploy" -> subscript d k = subscript (JObj (task_payload t)) k) /\
  subscript d "secret_environment_variables" =
    Ok (JList (map (fun kv => JObj [("key", JStr (fst kv)); ("value", snd kv)])
                   (task_secrets t))).
Proof.
  revert pre p d r post.
  enough (H : at_each
            (fun pre ev post => forall p d r, ev = EvHttp (Post p d) r ->
               (forall k, k <> "redeploy" ->
                  subscript d k = subscript (JObj (task_payload t)) k) /\
               subscript d "secret_environment_variables" =
                 Ok (JList (map (fun kv => JObj [("key", JStr (fst kv));
                                                 ("value", snd kv)])
                                (task_secrets t))))
            [] (fst (run w [] (strategy helper t))))
    by (intros pre p d r post E; exact (at_each_nil _ _ H pre _ post E p d r eq_refl)).
  split_any_task t.
  all: exec.
  all: cbn [at_each app]; repeat split; intros; simplify_eq; try reflexivity.
  all: match goal with
       | |- subscript (JObj ?x) ?k = subscript (JObj ?y) ?k =>
           change x with (dict_del y "redeploy")
       end.
  all: cbn [subscript]; rewrite dict_get_del_other by congruence; reflexivity.
Qed.

Lemma creation_sends_the_wished_payload_witness :
  let tr := MoreSamples.creating_trace in
  let ev := nth_event 2 tr in
  tr = (take 2 tr
        ++ EvHttp (Post (event_path ev) (event_data ev)) (event_response ev)
        :: drop 3 tr)%list /\
  subscript (event_data ev) "secret_environment_variables" =
    Ok (JList [JObj [("key", JStr "MY_SECRET_VAR");
                     ("value", JStr "my_secret_value")]]).
Proof.
  cbv zeta.
  split; [vm_compute; reflexivity|].
  apply (creation_sends_the_wished_payload attributes_diff MoreSamples.creating
           (MoreSamples.web_task present false)
           (take 2 MoreSamples.creating_trace)
           (drop 3 MoreSamples.creating_trace)
           (event_path (nth_event 2 MoreSamples.creating_trace))
           (event_data (nth_event 2 MoreSamples.creating_trace))
           (event_response (nth_event 2 MoreSamples.creating_trace))).
  vm_compute; reflexivity.
Defined.

(** X14.  The container module sends its [container_timeout] parameter
    under the key [timeout]; [container_timeout], [state] and [region] are
    no keys of what it posts. *)
Theorem container_timeout_is_sent_as_timeout (helper : helper_t) (w : world)
    (m : AnsibleModule scaleway_container.params_t) :
  Forall
    (fun ev => forall p d r, ev = EvHttp (Post p d) r ->
       subscript d "timeout" =
         Ok (of_str (scaleway_container.p_container_timeout (params m))) /\
       subscript d "container_timeout" = Err (KeyError "container_timeout") /\
       subscript d "state" = Err (KeyError "state") /\
       subscript d "region" = Err (KeyError "region"))
    (fst (run w [] (main helper (Container m)))).
Proof.
  unfold_modules. destruct (scaleway_container.p_state (params m)).
  all: exec.
  all: repeat constructor; intros; simplify_eq; repeat split; reflexivity.
Qed.

(** X15.  When the API accepts a POST but its answer has no ["id"], the
    wait on the answer is the only call that follows and the strategy does
    not return: if the wait returns, the run ends in the uncaught exception
    of [creation_response.json["id"]], the resource being created. *)
Theorem creation_without_id_raises (helper : helper_t) (w : world)
    (t : task) (pre post : list event) (p : path) (d : jvalue) (r : Response)
    (e : exn) :
  fst (run w [] (strategy helper t)) = (pre ++ EvHttp (Post p d) r :: post)%list ->
  ok r = true ->
  subscript (json r) "id" = Err e ->
  (exists wr, post = [EvWait (task_api_path t) (json r) (task_stable_states t)
                        false wr]) /\
  (forall a, snd (run w [] (strategy helper t)) <> Returned a) /\
  (post = [EvWait (task_api_path t) (json r) (task_stable_states t) false None] ->
   snd (run w [] (strategy helper t)) = Raised e).
Proof.
  revert pre p d r post.
  enough (H : at_each
            (fun pre ev post => forall p d r, ev = EvHttp (Post p d) r ->
               ok r = true -> subscript (json r) "id" = Err e ->
               (exists wr, post = [EvWait (task_api_path t) (json r)
                                     (task_stable_states t) false wr]) /\
               (forall a, snd (run w [] (strategy helper t)) <> Returned a) /\
               (post = [EvWait (task_api_path t) (json r)
                          (task_stable_states t) false None] ->
                snd (run w [] (strategy helper t)) = Raised e))
            [] (fst (run w [] (strategy helper t))))
    by (intros pre p d r post E; exact (at_each_nil _ _ H pre _ post E p d r eq_refl)).
  split_any_task t.
  all: exec.
  all: cbn [at_each app]; repeat split; intros; exec;
    cbn [task_stable_states task_api_path api_path] in *;
    try congruence; try ok_contradiction.
  all: try (eexists; reflexivity).
  all: simpl in *; try congruence; ok_contradiction.
Qed.

Lemma creation_without_id_raises_witness :
  let t := MoreSamples.web_task present false in
  let w := Samples.serve "containers" [] (Samples.reply 200 Samples.web)
             (Samples.reply 200 (JObj [("name", JStr "web")])) in
  let tr := fst (run w [] (strategy attributes_diff t)) in
  let ev := nth_event 2 tr in
  tr = (take 2 tr
        ++ EvHttp (Post (event_path ev) (event_data ev)) (event_response ev)
        :: drop 3 tr)%list /\
  ok (event_response ev) = true /\
  subscript (json (event_response ev)) "id" = Err (KeyError "id") /\
  snd (run w [] (strategy attributes_diff t)) = Raised (KeyError "id").
Proof.
  cbv zeta.
  split; [vm_compute; reflexivity|].
  split; [vm_compute; reflexivity|].
  split; [vm_compute; reflexivity|].
  apply (creation_without_id_raises attributes_diff
           (Samples.serve "containers" [] (Samples.reply 200 Samples.web)
              (Samples.reply 200 (JObj [("name", JStr "web")])))
           (MoreSamples.web_task present false)
           (take 2 (fst (run (Samples.serve "containers" []
                                (Samples.reply 200 Samples.web)
                                (Samples.reply 200 (JObj [("name", JStr "web")])))
                           [] (strategy attributes_diff
                                 (MoreSamples.web_task present false)))))
           [EvWait (task_api_path (MoreSamples.web_task present false))
              (JObj [("name", JStr "web")])
              (task_stable_states (MoreSamples.web_task present false)) false None]
           (Collection (task_api_path (MoreSamples.web_task present false)))
           (JObj (dict_del (task_payload (MoreSamples.web_task present false))
                           "redeploy"))
           (Samples.reply 200 (JObj [("name", JStr "web")]))
           (KeyError "id")).
  - vm_compute; reflexivity.
  - reflexivity.
  - reflexivity.
  - reflexivity.
Defined.

(** *** Update and deletion *)

(** X16.  A PATCH is the second call of its run, right after the listing;
    the listing succeeded, the lookup built from it binds the wished name
    to a resource, and the PATCH addresses the ["id"] of that resource on
    the module's endpoint and carries the patch the diffing helper returned
    for that resource, called as the module calls it, a patch that is
    truthy. *)
Theorem update_sends_the_helpers_patch (helper : helper_t) (w : world)
    (i : invocation) (pre post : list event) (p : path) (d : jvalue)
    (r : Response) :
  fst (run w [] (main helper i)) = (pre ++ EvHttp (Patch p d) r :: post)%list ->
  exists l lookup target id ev,
    listing w i = Some l /\
    name_lookup l = Ok lookup /\
    lookup !! HStr (wished_name i) = Some target /\
    pre = [ev] /\ is_listing ev = true /\
    p = Item (endpoint i) id /\
    subscript target "id" = Ok id /\
    patch_payload helper i target = Ok d /\
    py_truthy d = true.
Proof.
  revert pre p d r post.
  enough (H : at_each
            (fun pre ev post => forall p d r, ev = EvHttp (Patch p d) r ->
               exists l lookup target id ev,
                 listing w i = Some l /\
                 name_lookup l = Ok lookup /\
                 lookup !! HStr (wished_name i) = Some target /\
                 pre = [ev] /\ is_listing ev = true /\
                 p = Item (endpoint i) id /\
                 subscript target "id" = Ok id /\
                 patch_payload helper i target = Ok d /\
                 py_truthy d = true)
            [] (fst (run w [] (main helper i))))
    by (intros pre p d r post E; exact (at_each_nil _ _ H pre _ post E p d r eq_refl)).
  unfold patch_payload. split_invocation i.
  all: exec.
  all: cbn [at_each app]; repeat split; intros; simplify_eq.
  all: eexists _, _, _, _, _.
  all: repeat split; try reflexivity; try eassumption.
  all: apply negb_false_iff; assumption.
Qed.

Lemma update_sends_the_helpers_patch_witness :
  let i := FunctionNamespace (Samples.ns_module present false) in
  let tr := MoreSamples.renewing_trace in
  let ev := nth_event 1 tr in
  tr = (take 1 tr
        ++ EvHttp (Patch (event_path ev) (event_data ev)) (event_response ev)
        :: drop 2 tr)%list /\
  subscript (event_data ev) "description" = Ok (JStr "") /\
  exists l lookup target id le,
    listing MoreSamples.renewing i = Some l /\
    name_lookup l = Ok lookup /\
    lookup !! HStr (wished_name i) = Some target /\
    take 1 tr = [le] /\ is_listing le = true /\
    event_path ev = Item (endpoint i) id /\
    subscript target "id" = Ok id /\
    patch_payload attributes_diff i target = Ok (event_data ev) /\
    py_truthy (event_data ev) = true.
Proof.
  cbv zeta.
  split; [vm_compute; reflexivity|].
  split; [vm_compute; reflexivity|].
  apply (update_sends_the_helpers_patch attributes_diff MoreSamples.renewing
           (FunctionNamespace (Samples.ns_module present false))
           (take 1 MoreSamples.renewing_trace)
           (drop 2 MoreSamples.renewing_trace)
           (event_path (nth_event 1 MoreSamples.renewing_trace))
           (event_data (nth_event 1 MoreSamples.renewing_trace))
           (event_response (nth_event 1 MoreSamples.renewing_trace))).
  vm_compute; reflexivity.
Defined.

(** X17.  A DELETE is the third call of its run: the listing succeeded, the
    lookup built from it binds the wished name to a resource, and before
    the DELETE come the listing and a forced wait on that resource that
    returned; the DELETE addresses the ["id"] of that resource on the
    module's endpoint; and when the API accepts it, one unforced wait on
    the same resource follows and ends the run. *)
Theorem deletion_follows_a_forced_wait (helper : helper_t) (w : world)
    (i : invocation) (pre post : list event) (p : path) (r : Response) :
  fst (run w [] (main helper i)) = (pre ++ EvHttp (Delete p) r :: post)%list ->
  exists l lookup target id ev st,
    listing w i = Some l /\
    name_lookup l = Ok lookup /\
    lookup !! HStr (wished_name i) = Some target /\
    task_of i = Some st /\
    pre = [ev; EvWait (endpoint i) target (task_stable_states st) true None] /\
    is_listing ev = true /\
    p = Item (endpoint i) id /\
    subscript target "id" = Ok id /\
    (ok r = true ->
     exists wr, post = [EvWait (endpoint i) target (task_stable_states st)
                          false wr]).
Proof.
  revert pre p r post.
  enough (H : at_each
            (fun pre ev post => forall p r, ev = EvHttp (Delete p) r ->
               exists l lookup target id ev st,
                 listing w i = Some l /\
                 name_lookup l = Ok lookup /\
                 lookup !! HStr (wished_name i) = Some target /\
                 task_of i = Some st /\
                 pre = [ev; EvWait (endpoint i) target
                              (task_stable_states st) true None] /\
                 is_listing ev = true /\
                 p = Item (endpoint i) id /\
                 subscript target "id" = Ok id /\
                 (ok r = true ->
                  exists wr, post = [EvWait (endpoint i) target
                                       (task_stable_states st) false wr]))
            [] (fst (run w [] (main helper i))))
    by (intros pre p r post E; exact (at_each_nil _ _ H pre _ post E p r eq_refl)).
  unfold task_of. split_invocation i.
  all: exec.
  all: cbn [at_each app]; repeat split; intros; simplify_eq.
  all: eexists _, _, _, _, _, _.
  all: repeat split; try reflexivity; try eassumption.
  all: intros Hok; first [ok_contradiction | eexists; reflexivity].
Qed.

Lemma deletion_follows_a_forced_wait_witness :
  let i := FunctionNamespace (Samples.ns_module absent false) in
  let tr := MoreSamples.deleting_run_trace in
  let ev := nth_event 2 tr in
  tr = (take 2 tr ++ EvHttp (Delete (event_path ev)) (event_response ev)
        :: drop 3 tr)%list /\
  exists l lookup target id le st,
    listing MoreSamples.deleting i = Some l /\
    name_lookup l = Ok lookup /\
    lookup !! HStr (wished_name i) = Some target /\
    task_of i = Some st /\
    take 2 tr = [le; EvWait (endpoint i) target (task_stable_states st) true None] /\
    is_listing le = true /\
    event_path ev = Item (endpoint i) id /\
    subscript target "id" = Ok id /\
    (ok (event_response ev) = true ->
     exists wr, drop 3 tr = [EvWait (endpoint i) target (task_stable_states st)
                               false wr]).
Proof.
  cbv zeta.
  split; [vm_compute; reflexivity|].
  apply (deletion_follows_a_forced_wait attributes_diff MoreSamples.deleting
           (FunctionNamespace (Samples.ns_module absent false))
           (take 2 MoreSamples.deleting_run_trace)
           (drop 3 MoreSamples.deleting_run_trace)
           (event_path (nth_event 2 MoreSamples.deleting_run_trace))
           (event_response (nth_event 2 MoreSamples.deleting_run_trace))).
  vm_compute; reflexivity.
Defined.

(** X18.  A POST, PATCH or DELETE that the API does not accept is the last
    call of its run and the strategy returns nothing; for a DELETE the run
    ends in [fail_json] with the status code and the body (no key of the
    body is read, so no exception can take its place). *)
Theorem rejected_write_ends_the_run (helper : helper_t) (w : world) (t : task)
    (pre post : list event) (ev : event) :
  fst (run w [] (strategy helper t)) = (pre ++ ev :: post)%list ->
  is_mutation ev = true ->
  event_ok ev = false ->
  post = [] /\
  (forall a, snd (run w [] (strategy helper t)) <> Returned a) /\
  (forall p r, ev = EvHttp (Delete p) r ->
     exists pre', snd (run w [] (strategy helper t)) =
       Failed [Lit pre'; Fmt (JInt (status_code r)); Lit ": "; Fmt (json r); Lit "]"]).
Proof.
  revert pre ev post.
  enough (H : at_each
            (fun pre ev post =>
               is_mutation ev = true -> event_ok ev = false ->
               post = [] /\
               (forall a, snd (run w [] (strategy helper t)) <> Returned a) /\
               (forall p r, ev = EvHttp (Delete p) r ->
                  exists pre', snd (run w [] (strategy helper t)) =
                    Failed [Lit pre'; Fmt (JInt (status_code r)); Lit ": ";
                            Fmt (json r); Lit "]"]))
            [] (fst (run w [] (strategy helper t))))
    by (intros pre ev post E; exact (at_each_nil _ _ H pre ev post E)).
  split_any_task t.
  all: exec.
  all: cbn [at_each app is_mutation event_ok]; repeat split; try discriminate.
  all: intros; exec; try discriminate; try congruence.
  all: try (eexists; reflexivity).
  all: try (match goal with
            | H : negb ?x = false, H' : ?x = false |- _ =>
                rewrite H' in H; discriminate
            end).
Qed.

Lemma rejected_write_ends_the_run_witness :
  let tr := fst (run MoreSamples.rejecting []
                   (strategy attributes_diff (MoreSamples.web_task present false))) in
  tr = (take 2 tr ++ nth_event 2 tr :: [])%list /\
  is_mutation (nth_event 2 tr) = true /\
  event_ok (nth_event 2 tr) = false /\
  (forall a, snd (run MoreSamples.rejecting []
                    (strategy attributes_diff (MoreSamples.web_task present false)))
             <> Returned a).
Proof.
  cbv zeta.
  split; [vm_compute; reflexivity|].
  split; [vm_compute; reflexivity|].
  split; [vm_compute; reflexivity|].
  apply (rejected_write_ends_the_run attributes_diff MoreSamples.rejecting
           (MoreSamples.web_task present false)
           (take 2 (fst (run MoreSamples.rejecting []
                           (strategy attributes_diff
                              (MoreSamples.web_task present false)))))
           []
           (nth_event 2 (fst (run MoreSamples.rejecting []
                                (strategy attributes_diff
                                   (MoreSamples.web_task present false)))))).
  - vm_compute; reflexivity.
  - vm_compute; reflexivity.
  - vm_compute; reflexivity.
Defined.

(** X20.  When a strategy returns, every call of its run other than the
    read of an item was answered with a success: the listing and the POST,
    PATCH or DELETE were all accepted. *)
Theorem result_means_every_write_was_accepted (helper : helper_t) (w : world)
    (t : task) (a : bool * jvalue) :
  snd (run w [] (strategy helper t)) = Returned a ->
  Forall (fun ev => is_item_read ev = false -> event_ok ev = true)
    (fst (run w [] (strategy helper t))).
Proof.
  split_any_task t.
  all: exec.
  all: intros Hr; exec.
  all: repeat constructor; cbn [is_item_read event_ok]; intros; try discriminate;
    try reflexivity.
  all: apply negb_false_iff; assumption.
Qed.

Lemma result_means_every_write_was_accepted_witness :
  snd (run MoreSamples.creating []
         (strategy attributes_diff (MoreSamples.web_task present false)))
    = Returned (true, Samples.web) /\
  Forall (fun ev => is_item_read ev = false -> event_ok ev = true)
    (fst (run MoreSamples.creating []
            (strategy attributes_diff (MoreSamples.web_task present false)))).
Proof.
  split; [vm_compute; reflexivity|].
  apply (result_means_every_write_was_accepted attributes_diff
           MoreSamples.creating (MoreSamples.web_task present false)
           (true, Samples.web)).
  vm_compute; reflexivity.
Defined.

(** X21.  An exception of the diffing helper is not caught: when the
    resource is wished present and found, and the helper raises, the run is
    the listing alone and ends in that exception. *)
Theorem helper_exception_is_not_caught (helper : helper_t) (w : world)
    (i : invocation) (l : list jvalue) (lookup : gmap hkey jvalue)
    (target : jvalue) (e : exn) :
  listing w i = Some l ->
  name_lookup l = Ok lookup ->
  wished_state i = Some present ->
  lookup !! HStr (wished_name i) = Some target ->
  patch_payload helper i target = Err e ->
  snd (run w [] (main helper i)) = Raised e /\
  exists ev, fst (run w [] (main helper i)) = [ev] /\ is_listing ev = true.
Proof.
  intros Hl Hn Hs Hlk Hp. unfold patch_payload in Hp.
  split_invocation i; try discriminate.
  all: exec.
  all: split; [reflexivity|eexists; split; reflexivity].
Qed.

Lemma helper_exception_is_not_caught_witness :
  let bare := JObj [("id", JStr "531a1fd7"); ("name", JStr "my-namespace")] in
  let w := Samples.serve "namespaces" [bare] (Samples.reply 200 bare)
             (Samples.reply 200 bare) in
  let i := FunctionNamespace (Samples.ns_module present false) in
  listing w i = Some [bare] /\
  patch_payload attributes_diff i bare = Err (KeyError "description") /\
  snd (run w [] (main attributes_diff i)) = Raised (KeyError "description").
Proof.
  cbv zeta.
  split; [vm_compute; reflexivity|].
  split; [vm_compute; reflexivity|].
  apply (helper_exception_is_not_caught attributes_diff
           (Samples.serve "namespaces"
              [JObj [("id", JStr "531a1fd7"); ("name", JStr "my-namespace")]]
              (Samples.reply 200
                 (JObj [("id", JStr "531a1fd7"); ("name", JStr "my-namespace")]))
              (Samples.reply 200
                 (JObj [("id", JStr "531a1fd7"); ("name", JStr "my-namespace")])))
           (FunctionNamespace (Samples.ns_module present false))
           [JObj [("id", JStr "531a1fd7"); ("name", JStr "my-namespace")]]
           (<[HStr "my-namespace" :=
                JObj [("id", JStr "531a1fd7"); ("name", JStr "my-namespace")]]> empty)
           (JObj [("id", JStr "531a1fd7"); ("name", JStr "my-namespace")])).
  - vm_compute; reflexivity.
  - reflexivity.
  - reflexivity.
  - vm_compute; reflexivity.
  - vm_compute; reflexivity.
Defined.

(** *** Results *)

(** X22.  A converged run is the listing call alone and reports what the
    listing said, without a read of the item: the listed description when
    the resource is wished present and the helper, called as the module
    calls it, returns an empty patch; the empty dict when it is wished
    absent and not listed.  Either goes through the output filter under the
    module's result key with [changed] false. *)
Theorem converged_result_is_the_listed_description (helper : helper_t)
    (w : world) (i : invocation) (l : list jvalue) (lookup : gmap hkey jvalue)
    (summary : jvalue) :
  listing w i = Some l ->
  name_lookup l = Ok lookup ->
  match wished_state i with
  | Some present =>
      lookup !! HStr (wished_name i) = Some summary /\
      exists patch, patch_payload helper i summary = Ok patch /\
                    py_truthy patch = false
  | Some absent => lookup !! HStr (wished_name i) = None /\ summary = JObj []
  | None => False
  end ->
  exists ev,
    run w [] (main helper i) = ([ev], Returned (exit_of i (false, summary))) /\
    is_listing ev = true.
Proof.
  intros Hl Hn Hc. unfold patch_payload in Hc.
  split_invocation i; try contradiction.
  all: try destruct Hc as (Hlk & patch & Hp & Ht).
  all: try destruct Hc as (Hlk & ->).
  all: exec.
  all: eexists; split; reflexivity.
Qed.

Lemma converged_result_is_the_listed_description_witness :
  let i := FunctionNamespace (Samples.ns_module present false) in
  listing MoreSamples.settled i = Some [Samples.ns "531a1fd7"] /\
  exists ev,
    run MoreSamples.settled [] (main attributes_diff i) =
      ([ev], Returned (exit_of i (false, Samples.ns "531a1fd7"))) /\
    is_listing ev = true.
Proof.
  cbv zeta.
  split; [vm_compute; reflexivity|].
  apply (converged_result_is_the_listed_description attributes_diff
           MoreSamples.settled
           (FunctionNamespace (Samples.ns_module present false))
           [Samples.ns "531a1fd7"]
           (<[HStr "my-namespace" := Samples.ns "531a1fd7"]> empty)
           (Samples.ns "531a1fd7")).
  - vm_compute; reflexivity.
  - reflexivity.
  - split; [vm_compute; reflexivity|].
    exists (JObj []). split; [vm_compute; reflexivity|reflexivity].
Defined.

(** X23.  When an info module exits normally, its run is the listing and
    the read of one item, both answered with a success, and the result is
    the body of that read, through the output filter, with [changed]
    false. *)
Theorem info_result_is_an_accepted_read (w : world) (k : info_module)
    (m : AnsibleModule info_params) (e : exit) :
  snd (run w [] (info_core k m)) = Returned e ->
  exists r1 id r2,
    fst (run w [] (info_core k m)) =
      [EvHttp (Get (Collection (endpoint (InfoModule k m)))) r1;
       EvHttp (Get (Item (endpoint (InfoModule k m)) id)) r2] /\
    ok r1 = true /\ ok r2 = true /\
    e = exit_of (InfoModule k m) (false, json r2).
Proof.
  destruct k; unfold_modules; unfold endpoint, region_of.
  all: exec.
  all: intros He; exec.
  all: eexists _, _, _; repeat split; try reflexivity.
  all: apply negb_false_iff; assumption.
Qed.

Lemma info_result_is_an_accepted_read_witness :
  snd (run MoreSamples.reading []
         (info_core container_registry_info Samples.info_module_params))
    = Returned (ExitJson false "container_registry" MoreSamples.registry) /\
  exists r1 id r2,
    fst (run MoreSamples.reading []
           (info_core container_registry_info Samples.info_module_params)) =
      [EvHttp (Get (Collection "registry/v1/regions/fr-par/namespaces")) r1;
       EvHttp (Get (Item "registry/v1/regions/fr-par/namespaces" id)) r2] /\
    ok r1 = true /\ ok r2 = true /\
    ExitJson false "container_registry" MoreSamples.registry =
      exit_of (InfoModule container_registry_info Samples.info_module_params)
        (false, json r2).
Proof.
  split; [vm_compute; reflexivity|].
  apply (info_result_is_an_accepted_read MoreSamples.reading
           container_registry_info Samples.info_module_params
           (ExitJson false "container_registry" MoreSamples.registry)).
  vm_compute; reflexivity.
Defined.

(** X24.  [core] of a mutating module adds no call to those of the
    strategy it dispatches to: the trace is the strategy's, a failure or an
    exception of the strategy is the module's, and a return [(changed,
    summary)] becomes the exit with that [changed] and the filtered
    [summary] under the module's result key. *)
Theorem core_exits_with_what_the_strategy_returns (helper : helper_t)
    (w : world) (i : invocation) (t : task) :
  task_of i = Some t ->
  run w [] (main helper i) =
    (fst (run w [] (strategy helper t)),
     map_outcome (exit_of i) (snd (run w [] (strategy helper t)))).
Proof.
  intros Ht. destruct i as [m|m|k m]; cbn in Ht; simplify_eq.
  all: unfold main, scaleway_container.core, scaleway_function_namespace.core,
         strategy; cbv zeta; rewrite run_bind.
  all: match goal with
       | |- context [run ?w0 [] ?p] => destruct (run w0 [] p) as [tr [a|msg|e]]
       end; reflexivity.
Qed.

Lemma core_exits_with_what_the_strategy_returns_witness :
  task_of (Container (Samples.web_module present false))
    = Some (MoreSamples.web_task present false) /\
  run MoreSamples.creating []
      (main attributes_diff (Container (Samples.web_module present false))) =
    (fst (run MoreSamples.creating []
            (strategy attributes_diff (MoreSamples.web_task present false))),
     map_outcome (exit_of (Container (Samples.web_module present false)))
       (snd (run MoreSamples.creating []
               (strategy attributes_diff (MoreSamples.web_task present false))))).
Proof.
  split; [reflexivity|].
  apply (core_exits_with_what_the_strategy_returns attributes_diff
           MoreSamples.creating (Container (Samples.web_module present false))
           (MoreSamples.web_task present false)).
  reflexivity.
Defined.

(** *** Check mode, by the observed state *)

(** X25.  In check mode, when the listing succeeds and the desired state
    asks for a change of the observed one (wished present and not listed;
    wished present, listed, and the helper, called as the module calls it,
    returns a patch that is not empty; wished absent and listed), the run
    is the listing call alone and the module exits with [changed] true and
    the status text of that very change, through the output filter under
    its result key. *)
Theorem check_mode_reports_the_would_be_change (helper : helper_t) (w : world)
    (i : invocation) (l : list jvalue) (lookup : gmap hkey jvalue)
    (status : string) :
  module_check_mode i = true ->
  listing w i = Some l ->
  name_lookup l = Ok lookup ->
  would_be_change helper i lookup = Some status ->
  exists ev,
    run w [] (main helper i) =
      ([ev], Returned (exit_of i (true, JObj [("status", JStr status)]))) /\
    is_listing ev = true.
Proof.
  intros Hc Hl Hn Hs. unfold would_be_change, patch_payload in Hs.
  split_invocation i; try discriminate.
  all: cbn [module_check_mode wished_name] in Hc, Hs; exec.
  all: try discriminate.
  all: eexists; split; reflexivity.
Qed.

Lemma check_mode_reports_the_would_be_change_witness :
  let i := FunctionNamespace (Samples.ns_module present true) in
  listing MoreSamples.renewing i = Some [MoreSamples.stale_ns] /\
  would_be_change attributes_diff i
    (<[HStr "my-namespace" := MoreSamples.stale_ns]> empty)
    = Some "Function namespace attributes would be changed." /\
  exists ev,
    run MoreSamples.renewing [] (main attributes_diff i) =
      ([ev],
       Returned (exit_of i
         (true, JObj [("status",
                       JStr "Function namespace attributes would be changed.")]))) /\
    is_listing ev = true.
Proof.
  cbv zeta.
  split; [vm_compute; reflexivity|].
  split; [vm_compute; reflexivity|].
  apply (check_mode_reports_the_would_be_change attributes_diff
           MoreSamples.renewing
           (FunctionNamespace (Samples.ns_module present true))
           [MoreSamples.stale_ns]
           (<[HStr "my-namespace" := MoreSamples.stale_ns]> empty)).
  - reflexivity.
  - vm_compute; reflexivity.
  - reflexivity.
  - vm_compute; reflexivity.
Defined.
